(** * RocksDB option composition and workload presets (util/options.cc)

    A shallow embedding of [util/options.cc]: the configuration aggregates
    [AdvancedColumnFamilyOptions], [ColumnFamilyOptions], [DBOptions],
    [Options] and [ReadOptions], their constructors, the diagnostic dump of
    the column-family options and the workload preset transformers.
    [DBOptions::Dump], [Options::Dump] and [DBOptions::IncreaseParallelism]
    only call code of other files and are left out.

    Target model: LP64 ([int] and [unsigned int] are 32 bits wide, [size_t]
    and [uint64_t] 64 bits wide).  Integers are [Z] with the conversions and
    the wrap-around of the C++ types written out where the code performs
    them.  A [double] is a binary64 [float].  A pointer or [shared_ptr] is an
    [option]: [None] is [nullptr]. *)

From Stdlib Require Import ZArith Bool PrimFloat.
From stdpp Require Import base tactics option list list_numbers strings pretty gmap.

#[local] Open Scope Z_scope.

(* A decimal [double] literal of the source is the closest binary64 value. *)
#[local] Set Warnings "-inexact-float".

(** ** Machine integers *)

Definition INT_MIN : Z := - 2 ^ 31.
Definition INT_MAX : Z := 2 ^ 31 - 1.
Definition UINT_MAX : Z := 2 ^ 32 - 1.
Definition UINT64_MAX : Z := 2 ^ 64 - 1.
Definition PTRDIFF_MAX : Z := 2 ^ 63 - 1.

(** The values of the C++ types. *)
Definition is_int (z : Z) : Prop := INT_MIN <= z <= INT_MAX.
Definition is_uint64_t (z : Z) : Prop := 0 <= z <= UINT64_MAX.

(** [static_cast<unsigned int>(z)], and the conversion of [z] to [size_t] or
    [uint64_t]: reduction modulo the width. *)
Definition to_unsigned_int (z : Z) : Z := z mod 2 ^ 32.
Definition to_size_t (z : Z) : Z := z mod 2 ^ 64.
Definition to_uint64_t (z : Z) : Z := z mod 2 ^ 64.

(** [a * b] on [uint64_t]. *)
Definition uint64_mul (a b : Z) : Z := to_uint64_t (a * b).

(** ** Abnormal termination

    A failed [assert] (in a build that keeps assertions), the dereference of
    a null pointer, and the [std::length_error] that [std::vector::resize]
    throws for a size beyond [max_size()].  [endless_loop] stands for a loop
    whose condition stays true for ever: the statements after it are never
    reached. *)

Inductive fault : Set :=
| assertion_failure
| null_dereference
| length_error
| endless_loop.

Inductive result (A : Type) : Type :=
| Ok (a : A)
| Fault (f : fault).
Arguments Ok {A} a.
Arguments Fault {A} f.

#[global] Instance result_ret : MRet result := fun _ a => Ok a.
#[global] Instance result_bind : MBind result := fun _ _ k m =>
  match m with
  | Ok a => k a
  | Fault f => Fault f
  end.

(** [assert(cond)]: compiled out when [NDEBUG] is defined. *)
Definition assert (NDEBUG : bool) (cond : bool) : result unit :=
  if NDEBUG then Ok tt else if cond then Ok tt else Fault assertion_failure.

(** ** std::vector *)

(** [max_size()] of a vector whose elements take [sizeof_T] bytes, as
    libstdc++ defines it. *)
Definition vector_max_size (sizeof_T : Z) : Z := PTRDIFF_MAX / sizeof_T.

(** [v.resize(n, x)] for an [int] argument [n]: the argument is converted to
    [size_type]; a size beyond [max_size()] throws, otherwise the vector is
    truncated or padded with [x] (allocation is assumed to succeed). *)
Definition vector_resize {A : Type} (sizeof_T : Z) (n : Z) (x : A)
    (v : list A) : result (list A) :=
  let count := to_size_t n in
  if vector_max_size sizeof_T <? count then Fault length_error
  else Ok (resize (Z.to_nat count) x v).

(** ** Enumerations

    The enumerators this file names; [*_cast v] stands for any other value
    [v] of the underlying type. *)

Inductive CompressionType : Set :=
| kNoCompression
| kSnappyCompression
| kDisableCompressionOption
| CompressionType_cast (v : Z).

Inductive CompactionStyle : Set :=
| kCompactionStyleLevel
| kCompactionStyleUniversal
| CompactionStyle_cast (v : Z).

Inductive CompactionPri : Set :=
| kByCompensatedSize
| CompactionPri_cast (v : Z).

Inductive WALRecoveryMode : Set :=
| kTolerateCorruptedTailRecords
| WALRecoveryMode_cast (v : Z).

Inductive ReadTier : Set :=
| kReadAllTier
| ReadTier_cast (v : Z).

Inductive IndexType : Set :=
| kHashSearch
| IndexType_cast (v : Z).

(** ** Collaborators

    A polymorphic collaborator an option refers to is an opaque object,
    known by its identity.  The objects this file creates are known by the
    call that creates them: the model records which call made an object and
    with which arguments, not the identity of the allocation, so no
    statement below compares the objects of two calls. *)

Definition object : Set := nat.

Inductive SliceTransform : Set :=
| NewNoopTransform
| SliceTransform_object (o : object).

Inductive FilterPolicy : Set :=
| NewBloomFilterPolicy (bits_per_key : Z)
| FilterPolicy_object (o : object).

Inductive Cache : Set :=
| NewLRUCache (capacity : Z)
| Cache_object (o : object).

(** The fields of [BlockBasedTableOptions] this file assigns. *)
Record BlockBasedTableOptions : Set := {
  index_type : IndexType;
  filter_policy : option FilterPolicy;
  block_cache : option Cache
}.

Inductive TableFactory : Set :=
| BlockBasedTableFactory (table_options : BlockBasedTableOptions)
| TableFactory_object (o : object).

Record CompressionOptions : Set := {
  window_bits : Z;
  level : Z;
  strategy : Z;
  max_dict_bytes : Z
}.

Record CompactionOptionsUniversal : Set := {
  size_ratio : Z;
  min_merge_width : Z;
  max_merge_width : Z;
  max_size_amplification_percent : Z;
  compression_size_percent : Z
}.

Record CompactionOptionsFIFO : Set := {
  max_table_files_size : Z
}.

Record DbPath : Set := {
  path : string;
  target_size : Z
}.

(** ** The configuration aggregates

    The fields are those this file names, in the order of the constructors'
    initializer lists. *)

Record AdvancedColumnFamilyOptions : Type := {
  max_write_buffer_number : Z;
  min_write_buffer_number_to_merge : Z;
  max_write_buffer_number_to_maintain : Z;
  inplace_update_support : bool;
  inplace_update_num_locks : Z;
  inplace_callback : option object;
  memtable_prefix_bloom_size_ratio : float;
  memtable_huge_page_size : Z;
  memtable_insert_with_hint_prefix_extractor : option SliceTransform;
  bloom_locality : Z;
  arena_block_size : Z;
  compression_per_level : list CompressionType;
  num_levels : Z;
  level0_slowdown_writes_trigger : Z;
  level0_stop_writes_trigger : Z;
  target_file_size_base : Z;
  target_file_size_multiplier : Z;
  level_compaction_dynamic_level_bytes : bool;
  max_bytes_for_level_multiplier : float;
  max_bytes_for_level_multiplier_additional : list Z;
  max_compaction_bytes : Z;
  soft_pending_compaction_bytes_limit : Z;
  hard_pending_compaction_bytes_limit : Z;
  compaction_style : CompactionStyle;
  compaction_pri : CompactionPri;
  compaction_options_universal : CompactionOptionsUniversal;
  compaction_options_fifo : CompactionOptionsFIFO;
  max_sequential_skip_in_iterations : Z;
  memtable_factory : option object;
  table_properties_collector_factories : list (option object);
  max_successive_merges : Z;
  optimize_filters_for_hits : bool;
  paranoid_file_checks : bool;
  force_consistency_checks : bool;
  report_bg_io_stats : bool;
  (* read by [ColumnFamilyOptions::Dump]; in no initializer list *)
  rate_limit_delay_max_milliseconds : Z
}.

(** [struct ColumnFamilyOptions : public AdvancedColumnFamilyOptions] *)
Record ColumnFamilyOptions : Type := {
  ColumnFamilyOptions_base :> AdvancedColumnFamilyOptions;
  comparator : option object;
  merge_operator : option object;
  compaction_filter : option object;
  compaction_filter_factory : option object;
  write_buffer_size : Z;
  compression : CompressionType;
  bottommost_compression : CompressionType;
  compression_opts : CompressionOptions;
  level0_file_num_compaction_trigger : Z;
  prefix_extractor : option SliceTransform;
  max_bytes_for_level_base : Z;
  disable_auto_compactions : bool;
  table_factory : option TableFactory
}.

Record DBOptions : Type := {
  create_if_missing : bool;
  create_missing_column_families : bool;
  error_if_exists : bool;
  paranoid_checks : bool;
  env : option object;
  rate_limiter : option object;
  sst_file_manager : option object;
  info_log : option object;
  info_log_level : Z;
  max_open_files : Z;
  max_file_opening_threads : Z;
  max_total_wal_size : Z;
  statistics : option object;
  use_fsync : bool;
  db_paths : list DbPath;
  db_log_dir : string;
  wal_dir : string;
  delete_obsolete_files_period_micros : Z;
  base_background_compactions : Z;
  max_background_compactions : Z;
  max_subcompactions : Z;
  max_background_flushes : Z;
  max_log_file_size : Z;
  log_file_time_to_roll : Z;
  keep_log_file_num : Z;
  recycle_log_file_num : Z;
  max_manifest_file_size : Z;
  table_cache_numshardbits : Z;
  WAL_ttl_seconds : Z;
  WAL_size_limit_MB : Z;
  manifest_preallocation_size : Z;
  allow_mmap_reads : bool;
  allow_mmap_writes : bool;
  use_direct_reads : bool;
  use_direct_writes : bool;
  allow_fallocate : bool;
  is_fd_close_on_exec : bool;
  skip_log_error_on_recovery : bool;
  stats_dump_period_sec : Z;
  advise_random_on_open : bool;
  db_write_buffer_size : Z;
  write_buffer_manager : option object;
  access_hint_on_compaction_start : Z;
  new_table_reader_for_compaction_inputs : bool;
  compaction_readahead_size : Z;
  random_access_max_buffer_size : Z;
  writable_file_max_buffer_size : Z;
  use_adaptive_mutex : bool;
  bytes_per_sync : Z;
  wal_bytes_per_sync : Z;
  listeners : list (option object);
  enable_thread_tracking : bool;
  delayed_write_rate : Z;
  enable_pipeline_write : bool;
  allow_concurrent_memtable_write : bool;
  enable_write_thread_adaptive_yield : bool;
  write_thread_max_yield_usec : Z;
  write_thread_slow_yield_usec : Z;
  skip_stats_update_on_db_open : bool;
  wal_recovery_mode : WALRecoveryMode;
  row_cache : option Cache;
  wal_filter : option object;
  fail_if_options_file_error : bool;
  dump_malloc_stats : bool;
  avoid_flush_during_recovery : bool;
  avoid_flush_during_shutdown : bool
}.

(** [struct Options : public DBOptions, public ColumnFamilyOptions] *)
Record Options : Type := {
  Options_DBOptions :> DBOptions;
  Options_ColumnFamilyOptions :> ColumnFamilyOptions
}.

Record ReadOptions : Set := {
  verify_checksums : bool;
  fill_cache : bool;
  snapshot : option object;
  iterate_upper_bound : option object;
  read_tier : ReadTier;
  tailing : bool;
  managed : bool;
  total_order_seek : bool;
  prefix_same_as_start : bool;
  pin_data : bool;
  background_purge_on_iterator_cleanup : bool;
  readahead_size : Z;
  ignore_range_deletions : bool
}.

(** ** Assignment to a field

    [this <| f ::= v |>] is the object [this] after [f = v;].  A field of a
    base class is assigned through the derived object. *)

Class Assign (R : Type) {D T : Type} (field : D -> T) : Type :=
  assign : T -> R -> R.
Arguments assign {R D T} field {_} _ _ /.

Notation "this <| f ::= v |>" := (assign f v this)
  (at level 1, left associativity, format "this  <| f  ::=  v |>").

(** The record rebuilt from its projections; a setter is this term with the
    assigned projection replaced by the new value. *)
Definition eta_AdvancedColumnFamilyOptions
    (x : AdvancedColumnFamilyOptions) : AdvancedColumnFamilyOptions :=
  Build_AdvancedColumnFamilyOptions
    (max_write_buffer_number x) (min_write_buffer_number_to_merge x)
    (max_write_buffer_number_to_maintain x) (inplace_update_support x)
    (inplace_update_num_locks x) (inplace_callback x)
    (memtable_prefix_bloom_size_ratio x) (memtable_huge_page_size x)
    (memtable_insert_with_hint_prefix_extractor x) (bloom_locality x)
    (arena_block_size x) (compression_per_level x) (num_levels x)
    (level0_slowdown_writes_trigger x) (level0_stop_writes_trigger x)
    (target_file_size_base x) (target_file_size_multiplier x)
    (level_compaction_dynamic_level_bytes x)
    (max_bytes_for_level_multiplier x)
    (max_bytes_for_level_multiplier_additional x) (max_compaction_bytes x)
    (soft_pending_compaction_bytes_limit x)
    (hard_pending_compaction_bytes_limit x) (compaction_style x)
    (compaction_pri x) (compaction_options_universal x)
    (compaction_options_fifo x) (max_sequential_skip_in_iterations x)
    (memtable_factory x) (table_properties_collector_factories x)
    (max_successive_merges x) (optimize_filters_for_hits x)
    (paranoid_file_checks x) (force_consistency_checks x)
    (report_bg_io_stats x) (rate_limit_delay_max_milliseconds x).

Definition eta_ColumnFamilyOptions
    (x : ColumnFamilyOptions) : ColumnFamilyOptions :=
  Build_ColumnFamilyOptions
    (ColumnFamilyOptions_base x) (comparator x) (merge_operator x)
    (compaction_filter x) (compaction_filter_factory x) (write_buffer_size x)
    (compression x) (bottommost_compression x) (compression_opts x)
    (level0_file_num_compaction_trigger x) (prefix_extractor x)
    (max_bytes_for_level_base x) (disable_auto_compactions x)
    (table_factory x).

Definition eta_DBOptions (x : DBOptions) : DBOptions :=
  Build_DBOptions
    (create_if_missing x) (create_missing_column_families x)
    (error_if_exists x) (paranoid_checks x) (env x) (rate_limiter x)
    (sst_file_manager x) (info_log x) (info_log_level x) (max_open_files x)
    (max_file_opening_threads x) (max_total_wal_size x) (statistics x)
    (use_fsync x) (db_paths x) (db_log_dir x) (wal_dir x)
    (delete_obsolete_files_period_micros x) (base_background_compactions x)
    (max_background_compactions x) (max_subcompactions x)
    (max_background_flushes x) (max_log_file_size x)
    (log_file_time_to_roll x) (keep_log_file_num x) (recycle_log_file_num x)
    (max_manifest_file_size x) (table_cache_numshardbits x)
    (WAL_ttl_seconds x) (WAL_size_limit_MB x)
    (manifest_preallocation_size x) (allow_mmap_reads x)
    (allow_mmap_writes x) (use_direct_reads x) (use_direct_writes x)
    (allow_fallocate x) (is_fd_close_on_exec x)
    (skip_log_error_on_recovery x) (stats_dump_period_sec x)
    (advise_random_on_open x) (db_write_buffer_size x)
    (write_buffer_manager x) (access_hint_on_compaction_start x)
    (new_table_reader_for_compaction_inputs x) (compaction_readahead_size x)
    (random_access_max_buffer_size x) (writable_file_max_buffer_size x)
    (use_adaptive_mutex x) (bytes_per_sync x) (wal_bytes_per_sync x)
    (listeners x) (enable_thread_tracking x) (delayed_write_rate x)
    (enable_pipeline_write x) (allow_concurrent_memtable_write x)
    (enable_write_thread_adaptive_yield x) (write_thread_max_yield_usec x)
    (write_thread_slow_yield_usec x) (skip_stats_update_on_db_open x)
    (wal_recovery_mode x) (row_cache x) (wal_filter x)
    (fail_if_options_file_error x) (dump_malloc_stats x)
    (avoid_flush_during_recovery x) (avoid_flush_during_shutdown x).

Definition eta_CompactionOptionsUniversal
    (x : CompactionOptionsUniversal) : CompactionOptionsUniversal :=
  Build_CompactionOptionsUniversal
    (size_ratio x) (min_merge_width x) (max_merge_width x)
    (max_size_amplification_percent x) (compression_size_percent x).

Definition eta_BlockBasedTableOptions
    (x : BlockBasedTableOptions) : BlockBasedTableOptions :=
  Build_BlockBasedTableOptions (index_type x) (filter_policy x) (block_cache x).

Ltac setter eta field :=
  let body := eval cbv beta delta [eta] in eta in
  lazymatch eval pattern field in body with
  | ?build _ =>
      let f := eval cbv beta in (fun v x => build (fun _ => v) x) in
      exact f
  end.

#[global] Instance set_max_write_buffer_number : Assign AdvancedColumnFamilyOptions max_write_buffer_number :=
  ltac:(setter eta_AdvancedColumnFamilyOptions max_write_buffer_number).
#[global] Instance set_min_write_buffer_number_to_merge : Assign AdvancedColumnFamilyOptions min_write_buffer_number_to_merge :=
  ltac:(setter eta_AdvancedColumnFamilyOptions min_write_buffer_number_to_merge).
#[global] Instance set_memtable_prefix_bloom_size_ratio : Assign AdvancedColumnFamilyOptions memtable_prefix_bloom_size_ratio :=
  ltac:(setter eta_AdvancedColumnFamilyOptions memtable_prefix_bloom_size_ratio).
#[global] Instance set_compression_per_level : Assign AdvancedColumnFamilyOptions compression_per_level :=
  ltac:(setter eta_AdvancedColumnFamilyOptions compression_per_level).
#[global] Instance set_num_levels : Assign AdvancedColumnFamilyOptions num_levels :=
  ltac:(setter eta_AdvancedColumnFamilyOptions num_levels).
#[global] Instance set_level0_slowdown_writes_trigger : Assign AdvancedColumnFamilyOptions level0_slowdown_writes_trigger :=
  ltac:(setter eta_AdvancedColumnFamilyOptions level0_slowdown_writes_trigger).
#[global] Instance set_level0_stop_writes_trigger : Assign AdvancedColumnFamilyOptions level0_stop_writes_trigger :=
  ltac:(setter eta_AdvancedColumnFamilyOptions level0_stop_writes_trigger).
#[global] Instance set_target_file_size_base : Assign AdvancedColumnFamilyOptions target_file_size_base :=
  ltac:(setter eta_AdvancedColumnFamilyOptions target_file_size_base).
#[global] Instance set_max_bytes_for_level_multiplier_additional : Assign AdvancedColumnFamilyOptions max_bytes_for_level_multiplier_additional :=
  ltac:(setter eta_AdvancedColumnFamilyOptions max_bytes_for_level_multiplier_additional).
#[global] Instance set_max_compaction_bytes : Assign AdvancedColumnFamilyOptions max_compaction_bytes :=
  ltac:(setter eta_AdvancedColumnFamilyOptions max_compaction_bytes).
#[global] Instance set_soft_pending_compaction_bytes_limit : Assign AdvancedColumnFamilyOptions soft_pending_compaction_bytes_limit :=
  ltac:(setter eta_AdvancedColumnFamilyOptions soft_pending_compaction_bytes_limit).
#[global] Instance set_hard_pending_compaction_bytes_limit : Assign AdvancedColumnFamilyOptions hard_pending_compaction_bytes_limit :=
  ltac:(setter eta_AdvancedColumnFamilyOptions hard_pending_compaction_bytes_limit).
#[global] Instance set_compaction_style : Assign AdvancedColumnFamilyOptions compaction_style :=
  ltac:(setter eta_AdvancedColumnFamilyOptions compaction_style).
#[global] Instance set_compaction_pri : Assign AdvancedColumnFamilyOptions compaction_pri :=
  ltac:(setter eta_AdvancedColumnFamilyOptions compaction_pri).
#[global] Instance set_compaction_options_universal : Assign AdvancedColumnFamilyOptions compaction_options_universal :=
  ltac:(setter eta_AdvancedColumnFamilyOptions compaction_options_universal).
#[global] Instance set_memtable_factory : Assign AdvancedColumnFamilyOptions memtable_factory :=
  ltac:(setter eta_AdvancedColumnFamilyOptions memtable_factory).
#[global] Instance set_rate_limit_delay_max_milliseconds : Assign AdvancedColumnFamilyOptions rate_limit_delay_max_milliseconds :=
  ltac:(setter eta_AdvancedColumnFamilyOptions rate_limit_delay_max_milliseconds).
#[global] Instance set_ColumnFamilyOptions_base : Assign ColumnFamilyOptions ColumnFamilyOptions_base :=
  ltac:(setter eta_ColumnFamilyOptions ColumnFamilyOptions_base).
#[global] Instance set_merge_operator : Assign ColumnFamilyOptions merge_operator :=
  ltac:(setter eta_ColumnFamilyOptions merge_operator).
#[global] Instance set_compaction_filter : Assign ColumnFamilyOptions compaction_filter :=
  ltac:(setter eta_ColumnFamilyOptions compaction_filter).
#[global] Instance set_compaction_filter_factory : Assign ColumnFamilyOptions compaction_filter_factory :=
  ltac:(setter eta_ColumnFamilyOptions compaction_filter_factory).
#[global] Instance set_write_buffer_size : Assign ColumnFamilyOptions write_buffer_size :=
  ltac:(setter eta_ColumnFamilyOptions write_buffer_size).
#[global] Instance set_compression : Assign ColumnFamilyOptions compression :=
  ltac:(setter eta_ColumnFamilyOptions compression).
#[global] Instance set_level0_file_num_compaction_trigger : Assign ColumnFamilyOptions level0_file_num_compaction_trigger :=
  ltac:(setter eta_ColumnFamilyOptions level0_file_num_compaction_trigger).
#[global] Instance set_prefix_extractor : Assign ColumnFamilyOptions prefix_extractor :=
  ltac:(setter eta_ColumnFamilyOptions prefix_extractor).
#[global] Instance set_max_bytes_for_level_base : Assign ColumnFamilyOptions max_bytes_for_level_base :=
  ltac:(setter eta_ColumnFamilyOptions max_bytes_for_level_base).
#[global] Instance set_disable_auto_compactions : Assign ColumnFamilyOptions disable_auto_compactions :=
  ltac:(setter eta_ColumnFamilyOptions disable_auto_compactions).
#[global] Instance set_table_factory : Assign ColumnFamilyOptions table_factory :=
  ltac:(setter eta_ColumnFamilyOptions table_factory).
#[global] Instance set_max_open_files : Assign DBOptions max_open_files :=
  ltac:(setter eta_DBOptions max_open_files).
#[global] Instance set_max_file_opening_threads : Assign DBOptions max_file_opening_threads :=
  ltac:(setter eta_DBOptions max_file_opening_threads).
#[global] Instance set_base_background_compactions : Assign DBOptions base_background_compactions :=
  ltac:(setter eta_DBOptions base_background_compactions).
#[global] Instance set_max_background_compactions : Assign DBOptions max_background_compactions :=
  ltac:(setter eta_DBOptions max_background_compactions).
#[global] Instance set_max_background_flushes : Assign DBOptions max_background_flushes :=
  ltac:(setter eta_DBOptions max_background_flushes).
#[global] Instance set_table_cache_numshardbits : Assign DBOptions table_cache_numshardbits :=
  ltac:(setter eta_DBOptions table_cache_numshardbits).
#[global] Instance set_delayed_write_rate : Assign DBOptions delayed_write_rate :=
  ltac:(setter eta_DBOptions delayed_write_rate).
#[global] Instance set_wal_recovery_mode : Assign DBOptions wal_recovery_mode :=
  ltac:(setter eta_DBOptions wal_recovery_mode).
#[global] Instance set_compression_size_percent : Assign CompactionOptionsUniversal compression_size_percent :=
  ltac:(setter eta_CompactionOptionsUniversal compression_size_percent).
#[global] Instance set_index_type : Assign BlockBasedTableOptions index_type :=
  ltac:(setter eta_BlockBasedTableOptions index_type).
#[global] Instance set_filter_policy : Assign BlockBasedTableOptions filter_policy :=
  ltac:(setter eta_BlockBasedTableOptions filter_policy).
#[global] Instance set_block_cache : Assign BlockBasedTableOptions block_cache :=
  ltac:(setter eta_BlockBasedTableOptions block_cache).

(** A field of a base class, assigned through the derived object. *)
#[global] Instance set_base_AdvancedColumnFamilyOptions {T : Type}
    (f : AdvancedColumnFamilyOptions -> T)
    `{!Assign AdvancedColumnFamilyOptions f} : Assign ColumnFamilyOptions f :=
  fun v this =>
    this <| ColumnFamilyOptions_base ::= (this : AdvancedColumnFamilyOptions) <| f ::= v |> |>.

#[global] Instance set_base_ColumnFamilyOptions {D T : Type} (f : D -> T)
    `{!Assign ColumnFamilyOptions f} : Assign Options f :=
  fun v this =>
    {| Options_DBOptions := this;
       Options_ColumnFamilyOptions := (this : ColumnFamilyOptions) <| f ::= v |> |}.

#[global] Instance set_base_DBOptions {T : Type} (f : DBOptions -> T)
    `{!Assign DBOptions f} : Assign Options f :=
  fun v this =>
    {| Options_DBOptions := (this : DBOptions) <| f ::= v |>;
       Options_ColumnFamilyOptions := this |}.

(** Reading a field of an object after assignments: the setters are
    unfolded and the projections of the rebuilt records reduced. *)
Ltac simpl_fields :=
  cbv [assign
       set_max_write_buffer_number set_min_write_buffer_number_to_merge
       set_memtable_prefix_bloom_size_ratio set_compression_per_level
       set_num_levels set_level0_slowdown_writes_trigger
       set_level0_stop_writes_trigger set_target_file_size_base
       set_max_bytes_for_level_multiplier_additional set_max_compaction_bytes
       set_soft_pending_compaction_bytes_limit
       set_hard_pending_compaction_bytes_limit set_compaction_style
       set_compaction_pri set_compaction_options_universal
       set_memtable_factory set_rate_limit_delay_max_milliseconds
       set_ColumnFamilyOptions_base set_merge_operator set_compaction_filter
       set_compaction_filter_factory set_write_buffer_size set_compression
       set_level0_file_num_compaction_trigger set_prefix_extractor
       set_max_bytes_for_level_base set_disable_auto_compactions
       set_table_factory set_max_open_files set_max_file_opening_threads
       set_base_background_compactions set_max_background_compactions
       set_max_background_flushes set_table_cache_numshardbits
       set_delayed_write_rate set_wal_recovery_mode
       set_compression_size_percent set_index_type set_filter_policy
       set_block_cache set_base_AdvancedColumnFamilyOptions
       set_base_ColumnFamilyOptions set_base_DBOptions];
  cbn [
       max_write_buffer_number min_write_buffer_number_to_merge
       max_write_buffer_number_to_maintain inplace_update_support
       inplace_update_num_locks inplace_callback
       memtable_prefix_bloom_size_ratio memtable_huge_page_size
       memtable_insert_with_hint_prefix_extractor bloom_locality
       arena_block_size compression_per_level num_levels
       level0_slowdown_writes_trigger level0_stop_writes_trigger
       target_file_size_base target_file_size_multiplier
       level_compaction_dynamic_level_bytes max_bytes_for_level_multiplier
       max_bytes_for_level_multiplier_additional max_compaction_bytes
       soft_pending_compaction_bytes_limit
       hard_pending_compaction_bytes_limit compaction_style compaction_pri
       compaction_options_universal compaction_options_fifo
       max_sequential_skip_in_iterations memtable_factory
       table_properties_collector_factories max_successive_merges
       optimize_filters_for_hits paranoid_file_checks
       force_consistency_checks report_bg_io_stats
       rate_limit_delay_max_milliseconds ColumnFamilyOptions_base comparator
       merge_operator compaction_filter compaction_filter_factory
       write_buffer_size compression bottommost_compression compression_opts
       level0_file_num_compaction_trigger prefix_extractor
       max_bytes_for_level_base disable_auto_compactions table_factory
       create_if_missing create_missing_column_families error_if_exists
       paranoid_checks env rate_limiter sst_file_manager info_log
       info_log_level max_open_files max_file_opening_threads
       max_total_wal_size statistics use_fsync db_paths db_log_dir wal_dir
       delete_obsolete_files_period_micros base_background_compactions
       max_background_compactions max_subcompactions max_background_flushes
       max_log_file_size log_file_time_to_roll keep_log_file_num
       recycle_log_file_num max_manifest_file_size table_cache_numshardbits
       WAL_ttl_seconds WAL_size_limit_MB manifest_preallocation_size
       allow_mmap_reads allow_mmap_writes use_direct_reads use_direct_writes
       allow_fallocate is_fd_close_on_exec skip_log_error_on_recovery
       stats_dump_period_sec advise_random_on_open db_write_buffer_size
       write_buffer_manager access_hint_on_compaction_start
       new_table_reader_for_compaction_inputs compaction_readahead_size
       random_access_max_buffer_size writable_file_max_buffer_size
       use_adaptive_mutex bytes_per_sync wal_bytes_per_sync listeners
       enable_thread_tracking delayed_write_rate enable_pipeline_write
       allow_concurrent_memtable_write enable_write_thread_adaptive_yield
       write_thread_max_yield_usec write_thread_slow_yield_usec
       skip_stats_update_on_db_open wal_recovery_mode row_cache wal_filter
       fail_if_options_file_error dump_malloc_stats
       avoid_flush_during_recovery avoid_flush_during_shutdown
       Options_DBOptions Options_ColumnFamilyOptions index_type filter_policy
       block_cache size_ratio min_merge_width max_merge_width
       max_size_amplification_percent compression_size_percent].

(** ** What other files declare

    [options.cc] relies on declarations of its headers and of other
    translation units.  They are parameters of the model:
    - [catalog]: the value each field has after its in-class default member
      initializer, before a constructor body runs;
    - [BlockBasedTableOptions_ctor]: a default-constructed
      [BlockBasedTableOptions];
    - [Snappy_Supported()];
    - the virtual methods [Name()] and [GetPrintableTableOptions()] of the
      collaborators, and [CompressionTypeToString];
    - the name tables [compaction_style_to_string] and
      [compaction_pri_to_string], keyed by the enumeration's integer value,
      and the integer value of each enumeration value. *)

Record Externals : Type := {
  catalog : Options;
  BlockBasedTableOptions_ctor : BlockBasedTableOptions;
  Snappy_Supported : bool;
  Name : object -> string;
  SliceTransform_Name : SliceTransform -> string;
  TableFactory_Name : TableFactory -> string;
  GetPrintableTableOptions : TableFactory -> string;
  CompressionTypeToString : CompressionType -> string;
  compaction_style_to_string : gmap Z string;
  compaction_pri_to_string : gmap Z string;
  CompactionStyle_value : CompactionStyle -> Z;
  CompactionPri_value : CompactionPri -> Z
}.

(** ** The log sink

    [ROCKS_LOG_HEADER(log, format, args...)] hands one line to the logger:
    the format string and the values of its arguments.  [PRIu64] is ["lu"]
    and [ROCKSDB_PRIszt] is ["zu"]. *)

Inductive printf_arg : Set :=
| arg_s (s : string)
| arg_d (z : Z)
| arg_f (x : float).

Record log_line : Set := {
  fmt : string;
  args : list printf_arg
}.

Definition Logger : Set := list log_line.

(** A computation over a state [St] that ends normally with a value or
    abnormally with a [fault]; the state reached is kept in both cases. *)
Definition Exec (St A : Type) : Type := St -> St * result A.

#[global] Instance Exec_ret {St : Type} : MRet (Exec St) :=
  fun _ a st => (st, Ok a).
#[global] Instance Exec_bind {St : Type} : MBind (Exec St) :=
  fun _ _ k m st =>
    match m st with
    | (st', Ok a) => k a st'
    | (st', Fault f) => (st', Fault f)
    end.

Definition lift_result {St A : Type} (r : result A) : Exec St A :=
  fun st => (st, r).

Definition ROCKS_LOG_HEADER (format : string) (arguments : list printf_arg)
    : Exec Logger unit :=
  fun log => (log ++ [{| fmt := format; args := arguments |}], Ok tt).

(** [p->...]: the object [p] points to. *)
Definition deref {St A : Type} (p : option A) : Exec St A :=
  match p with
  | Some x => mret x
  | None => lift_result (Fault null_dereference)
  end.

(** [for (i = first; i < v.size(); i++) body(i, v[i]);] on the elements of
    [v] from index [first] on. *)
Fixpoint for_index {St A : Type} (body : Z -> A -> Exec St unit) (first : Z)
    (v : list A) : Exec St unit :=
  match v with
  | [] => mret tt
  | x :: v' => body first x ;; for_index body (first + 1) v'
  end.

(** [for (unsigned int i = 0; i < v.size(); i++) body(i, v[i]);]: the index
    has 32 bits and [v.size()] is a [size_t].  With at most [UINT_MAX]
    elements the index reaches [v.size()] and every element is visited once.
    With more, [i++] wraps from [UINT_MAX] to 0 while [i < v.size()] still
    holds: the loop goes over the first 2^32 elements again and again and
    never ends. *)
Definition for_index_unsigned_int {St A : Type} (body : Z -> A -> Exec St unit)
    (v : list A) : Exec St unit :=
  if Z.of_nat (length v) <=? UINT_MAX then for_index body 0 v
  else
    for_index body 0 (take (Z.to_nat (UINT_MAX + 1)) v) ;;
    lift_result (Fault endless_loop).

(** [for (const auto& x : v) acc = body(acc, x);] *)
Fixpoint for_range {St A B : Type} (body : B -> A -> Exec St B) (acc : B)
    (v : list A) : Exec St B :=
  match v with
  | [] => mret acc
  | x :: v' => acc' ← body acc x; for_range body acc' v'
  end.

Definition bool_to_int (b : bool) : Z := if b then 1 else 0.

(** [std::to_string] of an integer. *)
Definition std_to_string (z : Z) : string := pretty z.

(** ** Constructors *)

Section Constructors.

Variable NDEBUG : bool.
Variable ext : Externals.

(** [AdvancedColumnFamilyOptions::AdvancedColumnFamilyOptions()] *)
Definition AdvancedColumnFamilyOptions_ctor :
    result AdvancedColumnFamilyOptions :=
  let this : AdvancedColumnFamilyOptions := catalog ext in
  assert NDEBUG (bool_decide (memtable_factory this ≠ None)) ;;
  mret this.

(** [AdvancedColumnFamilyOptions::AdvancedColumnFamilyOptions(const Options&)] *)
Definition AdvancedColumnFamilyOptions_ctor_Options (options : Options) :
    result AdvancedColumnFamilyOptions :=
  let this := {|
    max_write_buffer_number := max_write_buffer_number options;
    min_write_buffer_number_to_merge :=
      min_write_buffer_number_to_merge options;
    max_write_buffer_number_to_maintain :=
      max_write_buffer_number_to_maintain options;
    inplace_update_support := inplace_update_support options;
    inplace_update_num_locks := inplace_update_num_locks options;
    inplace_callback := inplace_callback options;
    memtable_prefix_bloom_size_ratio :=
      memtable_prefix_bloom_size_ratio options;
    memtable_huge_page_size := memtable_huge_page_size options;
    memtable_insert_with_hint_prefix_extractor :=
      memtable_insert_with_hint_prefix_extractor options;
    bloom_locality := bloom_locality options;
    arena_block_size := arena_block_size options;
    compression_per_level := compression_per_level options;
    num_levels := num_levels options;
    level0_slowdown_writes_trigger := level0_slowdown_writes_trigger options;
    level0_stop_writes_trigger := level0_stop_writes_trigger options;
    target_file_size_base := target_file_size_base options;
    target_file_size_multiplier := target_file_size_multiplier options;
    level_compaction_dynamic_level_bytes :=
      level_compaction_dynamic_level_bytes options;
    max_bytes_for_level_multiplier := max_bytes_for_level_multiplier options;
    max_bytes_for_level_multiplier_additional :=
      max_bytes_for_level_multiplier_additional options;
    max_compaction_bytes := max_compaction_bytes options;
    soft_pending_compaction_bytes_limit :=
      soft_pending_compaction_bytes_limit options;
    hard_pending_compaction_bytes_limit :=
      hard_pending_compaction_bytes_limit options;
    compaction_style := compaction_style options;
    compaction_pri := compaction_pri options;
    compaction_options_universal := compaction_options_universal options;
    compaction_options_fifo := compaction_options_fifo options;
    max_sequential_skip_in_iterations :=
      max_sequential_skip_in_iterations options;
    memtable_factory := memtable_factory options;
    table_properties_collector_factories :=
      table_properties_collector_factories options;
    max_successive_merges := max_successive_merges options;
    optimize_filters_for_hits := optimize_filters_for_hits options;
    paranoid_file_checks := paranoid_file_checks options;
    force_consistency_checks := force_consistency_checks options;
    report_bg_io_stats := report_bg_io_stats options;
    (* not in the initializer list: the default member initializer *)
    rate_limit_delay_max_milliseconds :=
      rate_limit_delay_max_milliseconds (catalog ext)
  |} in
  assert NDEBUG (bool_decide (memtable_factory this ≠ None)) ;;
  if Z.of_nat (length (max_bytes_for_level_multiplier_additional this))
       <? to_unsigned_int (num_levels this)
  then
    v ← vector_resize 4 (num_levels this) 1
          (max_bytes_for_level_multiplier_additional this);
    mret (this <| max_bytes_for_level_multiplier_additional ::= v |>)
  else mret this.

(** [ColumnFamilyOptions::ColumnFamilyOptions()] *)
Definition ColumnFamilyOptions_ctor : result ColumnFamilyOptions :=
  base ← AdvancedColumnFamilyOptions_ctor;
  mret {|
    ColumnFamilyOptions_base := base;
    comparator := comparator (catalog ext);
    merge_operator := merge_operator (catalog ext);
    compaction_filter := compaction_filter (catalog ext);
    compaction_filter_factory := compaction_filter_factory (catalog ext);
    write_buffer_size := write_buffer_size (catalog ext);
    compression :=
      if Snappy_Supported ext then kSnappyCompression else kNoCompression;
    bottommost_compression := bottommost_compression (catalog ext);
    compression_opts := compression_opts (catalog ext);
    level0_file_num_compaction_trigger :=
      level0_file_num_compaction_trigger (catalog ext);
    prefix_extractor := prefix_extractor (catalog ext);
    max_bytes_for_level_base := max_bytes_for_level_base (catalog ext);
    disable_auto_compactions := disable_auto_compactions (catalog ext);
    table_factory :=
      Some (BlockBasedTableFactory (BlockBasedTableOptions_ctor ext))
  |}.

(** [ColumnFamilyOptions::ColumnFamilyOptions(const Options&)] *)
Definition ColumnFamilyOptions_ctor_Options (options : Options) :
    result ColumnFamilyOptions :=
  base ← AdvancedColumnFamilyOptions_ctor_Options options;
  mret {|
    ColumnFamilyOptions_base := base;
    comparator := comparator options;
    merge_operator := merge_operator options;
    compaction_filter := compaction_filter options;
    compaction_filter_factory := compaction_filter_factory options;
    write_buffer_size := write_buffer_size options;
    compression := compression options;
    bottommost_compression := bottommost_compression options;
    compression_opts := compression_opts options;
    level0_file_num_compaction_trigger :=
      level0_file_num_compaction_trigger options;
    prefix_extractor := prefix_extractor options;
    max_bytes_for_level_base := max_bytes_for_level_base options;
    disable_auto_compactions := disable_auto_compactions options;
    table_factory := table_factory options
  |}.

(** [DBOptions::DBOptions()] *)
Definition DBOptions_ctor : DBOptions := catalog ext.

(** [DBOptions::DBOptions(const Options&)] *)
Definition DBOptions_ctor_Options (options : Options) : DBOptions := {|
  create_if_missing := create_if_missing options;
  create_missing_column_families := create_missing_column_families options;
  error_if_exists := error_if_exists options;
  paranoid_checks := paranoid_checks options;
  env := env options;
  rate_limiter := rate_limiter options;
  sst_file_manager := sst_file_manager options;
  info_log := info_log options;
  info_log_level := info_log_level options;
  max_open_files := max_open_files options;
  max_file_opening_threads := max_file_opening_threads options;
  max_total_wal_size := max_total_wal_size options;
  statistics := statistics options;
  use_fsync := use_fsync options;
  db_paths := db_paths options;
  db_log_dir := db_log_dir options;
  wal_dir := wal_dir options;
  delete_obsolete_files_period_micros :=
    delete_obsolete_files_period_micros options;
  base_background_compactions := base_background_compactions options;
  max_background_compactions := max_background_compactions options;
  max_subcompactions := max_subcompactions options;
  max_background_flushes := max_background_flushes options;
  max_log_file_size := max_log_file_size options;
  log_file_time_to_roll := log_file_time_to_roll options;
  keep_log_file_num := keep_log_file_num options;
  recycle_log_file_num := recycle_log_file_num options;
  max_manifest_file_size := max_manifest_file_size options;
  table_cache_numshardbits := table_cache_numshardbits options;
  WAL_ttl_seconds := WAL_ttl_seconds options;
  WAL_size_limit_MB := WAL_size_limit_MB options;
  manifest_preallocation_size := manifest_preallocation_size options;
  allow_mmap_reads := allow_mmap_reads options;
  allow_mmap_writes := allow_mmap_writes options;
  use_direct_reads := use_direct_reads options;
  use_direct_writes := use_direct_writes options;
  allow_fallocate := allow_fallocate options;
  is_fd_close_on_exec := is_fd_close_on_exec options;
  skip_log_error_on_recovery := skip_log_error_on_recovery options;
  stats_dump_period_sec := stats_dump_period_sec options;
  advise_random_on_open := advise_random_on_open options;
  db_write_buffer_size := db_write_buffer_size options;
  write_buffer_manager := write_buffer_manager options;
  access_hint_on_compaction_start := access_hint_on_compaction_start options;
  new_table_reader_for_compaction_inputs :=
    new_table_reader_for_compaction_inputs options;
  compaction_readahead_size := compaction_readahead_size options;
  random_access_max_buffer_size := random_access_max_buffer_size options;
  writable_file_max_buffer_size := writable_file_max_buffer_size options;
  use_adaptive_mutex := use_adaptive_mutex options;
  bytes_per_sync := bytes_per_sync options;
  wal_bytes_per_sync := wal_bytes_per_sync options;
  listeners := listeners options;
  enable_thread_tracking := enable_thread_tracking options;
  delayed_write_rate := delayed_write_rate options;
  enable_pipeline_write := enable_pipeline_write options;
  allow_concurrent_memtable_write := allow_concurrent_memtable_write options;
  enable_write_thread_adaptive_yield :=
    enable_write_thread_adaptive_yield options;
  write_thread_max_yield_usec := write_thread_max_yield_usec options;
  write_thread_slow_yield_usec := write_thread_slow_yield_usec options;
  skip_stats_update_on_db_open := skip_stats_update_on_db_open options;
  wal_recovery_mode := wal_recovery_mode options;
  row_cache := row_cache options;
  wal_filter := wal_filter options;
  fail_if_options_file_error := fail_if_options_file_error options;
  dump_malloc_stats := dump_malloc_stats options;
  avoid_flush_during_recovery := avoid_flush_during_recovery options;
  avoid_flush_during_shutdown := avoid_flush_during_shutdown options
|}.

(** Modelled from the spec: the constructor
    [Options(const DBOptions&, const ColumnFamilyOptions&)] is declared in
    the header, outside [options.cc].  The spec describes [Options] as the
    union that composes one [DBOptions] and one [ColumnFamilyOptions]: the
    constructor copies each part into its base sub-object. *)
Definition Options_ctor_parts (db_options : DBOptions)
    (column_family_options : ColumnFamilyOptions) : Options :=
  {| Options_DBOptions := db_options;
     Options_ColumnFamilyOptions := column_family_options |}.

(** Splitting an [Options] value into its two parts and reassembling them. *)
Definition Options_split_reassemble (options : Options) : result Options :=
  cf ← ColumnFamilyOptions_ctor_Options options;
  let db := DBOptions_ctor_Options options in
  mret (Options_ctor_parts db cf).

End Constructors.

(** ** The diagnostic dump *)

Section Dump.

Variable NDEBUG : bool.
Variable ext : Externals.

(** [p ? p->Name() : absent] *)
Definition name_or (absent : string) (p : option object) : string :=
  match p with
  | Some o => Name ext o
  | None => absent
  end.

Definition SliceTransform_name_or (absent : string)
    (p : option SliceTransform) : string :=
  match p with
  | Some t => SliceTransform_Name ext t
  | None => absent
  end.

(** The lookup of an enumeration value in its name table, lines 303-311 and
    316-324 of the source. *)
Definition enum_to_string (table : gmap Z string) (value : Z) :
    Exec Logger string :=
  match table !! value with
  | None =>
      lift_result (assert NDEBUG false) ;;
      mret ("unknown_" +:+ std_to_string value)
  | Some name => mret name
  end.

(** [void ColumnFamilyOptions::Dump(Logger* log) const] *)
Definition ColumnFamilyOptions_Dump (this : ColumnFamilyOptions) :
    Exec Logger unit :=
  c ← deref (comparator this);
  ROCKS_LOG_HEADER "              Options.comparator: %s" [arg_s (Name ext c)] ;;
  ROCKS_LOG_HEADER "          Options.merge_operator: %s"
    [arg_s (name_or "None" (merge_operator this))] ;;
  ROCKS_LOG_HEADER "       Options.compaction_filter: %s"
    [arg_s (name_or "None" (compaction_filter this))] ;;
  ROCKS_LOG_HEADER "       Options.compaction_filter_factory: %s"
    [arg_s (name_or "None" (compaction_filter_factory this))] ;;
  m ← deref (memtable_factory this);
  ROCKS_LOG_HEADER "        Options.memtable_factory: %s" [arg_s (Name ext m)] ;;
  t ← deref (table_factory this);
  ROCKS_LOG_HEADER "           Options.table_factory: %s"
    [arg_s (TableFactory_Name ext t)] ;;
  t ← deref (table_factory this);
  ROCKS_LOG_HEADER "           table_factory options: %s"
    [arg_s (GetPrintableTableOptions ext t)] ;;
  ROCKS_LOG_HEADER "       Options.write_buffer_size: %zu"
    [arg_d (write_buffer_size this)] ;;
  ROCKS_LOG_HEADER " Options.max_write_buffer_number: %d"
    [arg_d (max_write_buffer_number this)] ;;
  (if bool_decide (compression_per_level this ≠ []) then
     for_index_unsigned_int
       (fun i x =>
          ROCKS_LOG_HEADER "       Options.compression[%d]: %s"
            [arg_d i; arg_s (CompressionTypeToString ext x)])
       (compression_per_level this)
   else
     ROCKS_LOG_HEADER "         Options.compression: %s"
       [arg_s (CompressionTypeToString ext (compression this))]) ;;
  ROCKS_LOG_HEADER "                 Options.bottommost_compression: %s"
    [arg_s (match bottommost_compression this with
            | kDisableCompressionOption => "Disabled"
            | x => CompressionTypeToString ext x
            end)] ;;
  ROCKS_LOG_HEADER "      Options.prefix_extractor: %s"
    [arg_s (SliceTransform_name_or "nullptr" (prefix_extractor this))] ;;
  ROCKS_LOG_HEADER "  Options.memtable_insert_with_hint_prefix_extractor: %s"
    [arg_s (SliceTransform_name_or "nullptr"
              (memtable_insert_with_hint_prefix_extractor this))] ;;
  ROCKS_LOG_HEADER "            Options.num_levels: %d"
    [arg_d (num_levels this)] ;;
  ROCKS_LOG_HEADER "       Options.min_write_buffer_number_to_merge: %d"
    [arg_d (min_write_buffer_number_to_merge this)] ;;
  ROCKS_LOG_HEADER "    Options.max_write_buffer_number_to_maintain: %d"
    [arg_d (max_write_buffer_number_to_maintain this)] ;;
  ROCKS_LOG_HEADER "           Options.compression_opts.window_bits: %d"
    [arg_d (window_bits (compression_opts this))] ;;
  ROCKS_LOG_HEADER "                 Options.compression_opts.level: %d"
    [arg_d (level (compression_opts this))] ;;
  ROCKS_LOG_HEADER "              Options.compression_opts.strategy: %d"
    [arg_d (strategy (compression_opts this))] ;;
  ROCKS_LOG_HEADER "        Options.compression_opts.max_dict_bytes: %zu"
    [arg_d (max_dict_bytes (compression_opts this))] ;;
  ROCKS_LOG_HEADER "     Options.level0_file_num_compaction_trigger: %d"
    [arg_d (level0_file_num_compaction_trigger this)] ;;
  ROCKS_LOG_HEADER "         Options.level0_slowdown_writes_trigger: %d"
    [arg_d (level0_slowdown_writes_trigger this)] ;;
  ROCKS_LOG_HEADER "             Options.level0_stop_writes_trigger: %d"
    [arg_d (level0_stop_writes_trigger this)] ;;
  ROCKS_LOG_HEADER "                  Options.target_file_size_base: %lu"
    [arg_d (target_file_size_base this)] ;;
  ROCKS_LOG_HEADER "            Options.target_file_size_multiplier: %d"
    [arg_d (target_file_size_multiplier this)] ;;
  ROCKS_LOG_HEADER "               Options.max_bytes_for_level_base: %lu"
    [arg_d (max_bytes_for_level_base this)] ;;
  ROCKS_LOG_HEADER "Options.level_compaction_dynamic_level_bytes: %d"
    [arg_d (bool_to_int (level_compaction_dynamic_level_bytes this))] ;;
  ROCKS_LOG_HEADER "         Options.max_bytes_for_level_multiplier: %f"
    [arg_f (max_bytes_for_level_multiplier this)] ;;
  for_index
    (fun i x =>
       ROCKS_LOG_HEADER "Options.max_bytes_for_level_multiplier_addtl[%zu]: %d"
         [arg_d i; arg_d x])
    0 (max_bytes_for_level_multiplier_additional this) ;;
  ROCKS_LOG_HEADER "      Options.max_sequential_skip_in_iterations: %lu"
    [arg_d (max_sequential_skip_in_iterations this)] ;;
  ROCKS_LOG_HEADER "                   Options.max_compaction_bytes: %lu"
    [arg_d (max_compaction_bytes this)] ;;
  ROCKS_LOG_HEADER "                       Options.arena_block_size: %zu"
    [arg_d (arena_block_size this)] ;;
  ROCKS_LOG_HEADER "  Options.soft_pending_compaction_bytes_limit: %lu"
    [arg_d (soft_pending_compaction_bytes_limit this)] ;;
  ROCKS_LOG_HEADER "  Options.hard_pending_compaction_bytes_limit: %lu"
    [arg_d (hard_pending_compaction_bytes_limit this)] ;;
  ROCKS_LOG_HEADER "      Options.rate_limit_delay_max_milliseconds: %u"
    [arg_d (rate_limit_delay_max_milliseconds this)] ;;
  ROCKS_LOG_HEADER "               Options.disable_auto_compactions: %d"
    [arg_d (bool_to_int (disable_auto_compactions this))] ;;
  str_compaction_style ←
    enum_to_string (compaction_style_to_string ext)
      (CompactionStyle_value ext (compaction_style this));
  ROCKS_LOG_HEADER "                        Options.compaction_style: %s"
    [arg_s str_compaction_style] ;;
  str_compaction_pri ←
    enum_to_string (compaction_pri_to_string ext)
      (CompactionPri_value ext (compaction_pri this));
  ROCKS_LOG_HEADER "                          Options.compaction_pri: %s"
    [arg_s str_compaction_pri] ;;
  ROCKS_LOG_HEADER " Options.compaction_options_universal.size_ratio: %u"
    [arg_d (size_ratio (compaction_options_universal this))] ;;
  ROCKS_LOG_HEADER "Options.compaction_options_universal.min_merge_width: %u"
    [arg_d (min_merge_width (compaction_options_universal this))] ;;
  ROCKS_LOG_HEADER "Options.compaction_options_universal.max_merge_width: %u"
    [arg_d (max_merge_width (compaction_options_universal this))] ;;
  ROCKS_LOG_HEADER
    "Options.compaction_options_universal.max_size_amplification_percent: %u"
    [arg_d (max_size_amplification_percent
              (compaction_options_universal this))] ;;
  ROCKS_LOG_HEADER
    "Options.compaction_options_universal.compression_size_percent: %d"
    [arg_d (compression_size_percent (compaction_options_universal this))] ;;
  ROCKS_LOG_HEADER "Options.compaction_options_fifo.max_table_files_size: %lu"
    [arg_d (max_table_files_size (compaction_options_fifo this))] ;;
  collector_names ←
    for_range
      (fun names collector_factory =>
         f ← deref collector_factory;
         mret (names +:+ Name ext f +:+ "; "))
      "" (table_properties_collector_factories this);
  ROCKS_LOG_HEADER "                  Options.table_properties_collectors: %s"
    [arg_s collector_names] ;;
  ROCKS_LOG_HEADER "                  Options.inplace_update_support: %d"
    [arg_d (bool_to_int (inplace_update_support this))] ;;
  ROCKS_LOG_HEADER "                Options.inplace_update_num_locks: %zu"
    [arg_d (inplace_update_num_locks this)] ;;
  ROCKS_LOG_HEADER "              Options.memtable_prefix_bloom_size_ratio: %f"
    [arg_f (memtable_prefix_bloom_size_ratio this)] ;;
  ROCKS_LOG_HEADER "  Options.memtable_huge_page_size: %zu"
    [arg_d (memtable_huge_page_size this)] ;;
  ROCKS_LOG_HEADER "                          Options.bloom_locality: %d"
    [arg_d (bloom_locality this)] ;;
  ROCKS_LOG_HEADER "                   Options.max_successive_merges: %zu"
    [arg_d (max_successive_merges this)] ;;
  ROCKS_LOG_HEADER "               Options.optimize_filters_for_hits: %d"
    [arg_d (bool_to_int (optimize_filters_for_hits this))] ;;
  ROCKS_LOG_HEADER "               Options.paranoid_file_checks: %d"
    [arg_d (bool_to_int (paranoid_file_checks this))] ;;
  ROCKS_LOG_HEADER "               Options.force_consistency_checks: %d"
    [arg_d (bool_to_int (force_consistency_checks this))] ;;
  ROCKS_LOG_HEADER "               Options.report_bg_io_stats: %d"
    [arg_d (bool_to_int (report_bg_io_stats this))].

(** [void Options::DumpCFOptions(Logger* log) const] *)
Definition Options_DumpCFOptions (this : Options) : Exec Logger unit :=
  ColumnFamilyOptions_Dump this.

End Dump.

(** ** Workload presets

    A transformer returns [this]: the model returns the object after the
    call. *)

(** [for (int i = first; i < bound; ++i) body(i);] for a body that assigns
    neither [i] nor [bound]. *)
Definition for_int {St : Type} (first bound : Z) (body : Z -> St -> St)
    (st : St) : St :=
  foldl (fun st i => body i st) st (seqZ first (bound - first)).

Section Presets.

Variable ext : Externals.

(** [Options* Options::PrepareForBulkLoad()] *)
Definition Options_PrepareForBulkLoad (this : Options) : Options :=
  this <| level0_file_num_compaction_trigger ::= Z.shiftl 1 30 |>
       <| level0_slowdown_writes_trigger ::= Z.shiftl 1 30 |>
       <| level0_stop_writes_trigger ::= Z.shiftl 1 30 |>
       <| soft_pending_compaction_bytes_limit ::= 0 |>
       <| hard_pending_compaction_bytes_limit ::= 0 |>
       <| disable_auto_compactions ::= true |>
       <| max_compaction_bytes ::= Z.shiftl (to_uint64_t 1) 60 |>
       <| num_levels ::= 2 |>
       <| max_write_buffer_number ::= 6 |>
       <| min_write_buffer_number_to_merge ::= 1 |>
       <| max_background_flushes ::= 4 |>
       <| max_background_compactions ::= 2 |>
       <| base_background_compactions ::= 2 |>
       <| target_file_size_base ::= 256 * 1024 * 1024 |>.

(** [DBOptions* DBOptions::OldDefaults(int, int)] *)
Definition DBOptions_OldDefaults
    (rocksdb_major_version rocksdb_minor_version : Z) (this : DBOptions) :
    DBOptions :=
  let this :=
    if (rocksdb_major_version <? 4)
       || ((rocksdb_major_version =? 4) && (rocksdb_minor_version <? 7))
    then this <| max_file_opening_threads ::= 1 |>
              <| table_cache_numshardbits ::= 4 |>
    else this in
  let this :=
    if (rocksdb_major_version <? 5)
       || ((rocksdb_major_version =? 5) && (rocksdb_minor_version <? 2))
    then this <| delayed_write_rate ::= 2 * 1024 * 1024 |>
    else this in
  this <| max_open_files ::= 5000 |>
       <| base_background_compactions ::= -1 |>
       <| wal_recovery_mode ::= kTolerateCorruptedTailRecords |>.

(** [ColumnFamilyOptions* ColumnFamilyOptions::OldDefaults(int, int)] *)
Definition ColumnFamilyOptions_OldDefaults
    (rocksdb_major_version rocksdb_minor_version : Z)
    (this : ColumnFamilyOptions) : ColumnFamilyOptions :=
  let this :=
    if (rocksdb_major_version <? 4)
       || ((rocksdb_major_version =? 4) && (rocksdb_minor_version <? 7))
    then this <| write_buffer_size ::= Z.shiftl 4 20 |>
              <| target_file_size_base ::= 2 * 1048576 |>
              <| max_bytes_for_level_base ::= 10 * 1048576 |>
              <| soft_pending_compaction_bytes_limit ::= 0 |>
              <| hard_pending_compaction_bytes_limit ::= 0 |>
    else this in
  let this :=
    if rocksdb_major_version <? 5
    then this <| level0_stop_writes_trigger ::= 24 |>
    else if (rocksdb_major_version =? 5) && (rocksdb_minor_version <? 2)
    then this <| level0_stop_writes_trigger ::= 30 |>
    else this in
  this <| compaction_pri ::= kByCompensatedSize |>.

(** [Options* Options::OldDefaults(int, int)] *)
Definition Options_OldDefaults
    (rocksdb_major_version rocksdb_minor_version : Z) (this : Options) :
    Options :=
  let this :=
    {| Options_DBOptions := this;
       Options_ColumnFamilyOptions :=
         ColumnFamilyOptions_OldDefaults
           rocksdb_major_version rocksdb_minor_version this |} in
  {| Options_DBOptions :=
       DBOptions_OldDefaults rocksdb_major_version rocksdb_minor_version this;
     Options_ColumnFamilyOptions := this |}.

(** [DBOptions* DBOptions::OptimizeForSmallDb()] *)
Definition DBOptions_OptimizeForSmallDb (this : DBOptions) : DBOptions :=
  this <| max_file_opening_threads ::= 1 |>
       <| max_open_files ::= 5000 |>.

(** [ColumnFamilyOptions* ColumnFamilyOptions::OptimizeForSmallDb()] *)
Definition ColumnFamilyOptions_OptimizeForSmallDb
    (this : ColumnFamilyOptions) : ColumnFamilyOptions :=
  this <| write_buffer_size ::= Z.shiftl 2 20 |>
       <| target_file_size_base ::= 2 * 1048576 |>
       <| max_bytes_for_level_base ::= 10 * 1048576 |>
       <| soft_pending_compaction_bytes_limit ::= 256 * 1048576 |>
       <| hard_pending_compaction_bytes_limit ::= 1073741824 |>.

(** [ColumnFamilyOptions* ColumnFamilyOptions::OptimizeForPointLookup(uint64_t)]

    Every call allocates its transform, filter policy, cache and table
    factory anew; the model keeps the creating call and its arguments. *)
Definition ColumnFamilyOptions_OptimizeForPointLookup
    (block_cache_size_mb : Z) (this : ColumnFamilyOptions) :
    ColumnFamilyOptions :=
  let this := this <| prefix_extractor ::= Some NewNoopTransform |> in
  let block_based_options := BlockBasedTableOptions_ctor ext in
  let block_based_options :=
    block_based_options <| index_type ::= kHashSearch |> in
  let block_based_options :=
    block_based_options
      <| filter_policy ::= Some (NewBloomFilterPolicy 10) |> in
  let block_based_options :=
    block_based_options
      <| block_cache ::=
           Some (NewLRUCache
                   (to_size_t
                      (uint64_mul (uint64_mul block_cache_size_mb 1024) 1024)))
      |> in
  let this :=
    this <| table_factory ::=
              Some (BlockBasedTableFactory block_based_options) |> in
  this <| memtable_prefix_bloom_size_ratio ::= 0.02%float |>.

(** [ColumnFamilyOptions* ColumnFamilyOptions::OptimizeLevelStyleCompaction(uint64_t)]

    [compression_per_level.resize(num_levels)] value-initializes the
    elements it appends, [static_cast<CompressionType>(0)]; the loop then
    assigns every element.  An element of [CompressionType] takes one
    byte. *)
Definition ColumnFamilyOptions_OptimizeLevelStyleCompaction
    (memtable_memory_budget : Z) : Exec ColumnFamilyOptions unit :=
  fun this =>
  let this :=
    this <| write_buffer_size ::= to_size_t (memtable_memory_budget / 4) |>
         <| min_write_buffer_number_to_merge ::= 2 |>
         <| max_write_buffer_number ::= 6 |>
         <| level0_file_num_compaction_trigger ::= 2 |>
         <| target_file_size_base ::= memtable_memory_budget / 8 |>
         <| max_bytes_for_level_base ::= memtable_memory_budget |>
         <| compaction_style ::= kCompactionStyleLevel |> in
  match
    vector_resize 1 (num_levels this) (CompressionType_cast 0)
      (compression_per_level this)
  with
  | Fault f => (this, Fault f)
  | Ok v =>
      let this := this <| compression_per_level ::= v |> in
      let this :=
        for_int 0 (num_levels this)
          (fun i (this : ColumnFamilyOptions) =>
             if i <? 2 then
               this <| compression_per_level ::=
                         <[Z.to_nat i := kNoCompression]>
                           (compression_per_level this) |>
             else
               this <| compression_per_level ::=
                         <[Z.to_nat i := kSnappyCompression]>
                           (compression_per_level this) |>)
          this in
      (this, Ok tt)
  end.

(** [ColumnFamilyOptions* ColumnFamilyOptions::OptimizeUniversalStyleCompaction(uint64_t)] *)
Definition ColumnFamilyOptions_OptimizeUniversalStyleCompaction
    (memtable_memory_budget : Z) (this : ColumnFamilyOptions) :
    ColumnFamilyOptions :=
  let this :=
    this <| write_buffer_size ::= to_size_t (memtable_memory_budget / 4) |>
         <| min_write_buffer_number_to_merge ::= 2 |>
         <| max_write_buffer_number ::= 6 |>
         <| compaction_style ::= kCompactionStyleUniversal |> in
  this <| compaction_options_universal ::=
            (compaction_options_universal this)
              <| compression_size_percent ::= 80 |> |>.

End Presets.

(** ** ReadOptions *)

(** [ReadOptions::ReadOptions()] *)
Definition ReadOptions_ctor : ReadOptions := {|
  verify_checksums := true;
  fill_cache := true;
  snapshot := None;
  iterate_upper_bound := None;
  read_tier := kReadAllTier;
  tailing := false;
  managed := false;
  total_order_seek := false;
  prefix_same_as_start := false;
  pin_data := false;
  background_purge_on_iterator_cleanup := false;
  readahead_size := 0;
  ignore_range_deletions := false
|}.

(** [ReadOptions::ReadOptions(bool cksum, bool cache)] *)
Definition ReadOptions_ctor_bool_bool (cksum cache : bool) : ReadOptions := {|
  verify_checksums := cksum;
  fill_cache := cache;
  snapshot := None;
  iterate_upper_bound := None;
  read_tier := kReadAllTier;
  tailing := false;
  managed := false;
  total_order_seek := false;
  prefix_same_as_start := false;
  pin_data := false;
  background_purge_on_iterator_cleanup := false;
  readahead_size := 0;
  ignore_range_deletions := false
|}.

(** ** The remaining transformers *)

(** [Options* Options::OptimizeForSmallDb()] *)
Definition Options_OptimizeForSmallDb (this : Options) : Options :=
  let this :=
    {| Options_DBOptions := this;
       Options_ColumnFamilyOptions :=
         ColumnFamilyOptions_OptimizeForSmallDb this |} in
  {| Options_DBOptions := DBOptions_OptimizeForSmallDb this;
     Options_ColumnFamilyOptions := this |}.

(** [Env::Priority], as far as this file names it. *)
Inductive Env_Priority : Set :=
| Env_LOW
| Env_HIGH.

(** A call [env->SetBackgroundThreads(number, pri)] on the object [env]. *)
Record SetBackgroundThreads_call : Set := {
  call_env : object;
  call_number : Z;
  call_pri : Env_Priority
}.

(** [DBOptions* DBOptions::IncreaseParallelism(int total_threads)]

    The state is the object and the calls the environments have received.
    [total_threads - 1] is the difference on [int]; it is exact for
    [INT_MIN < total_threads]. *)
Definition DBOptions_IncreaseParallelism (total_threads : Z) :
    Exec (DBOptions * list SetBackgroundThreads_call) unit :=
  fun '(this, calls) =>
  let this :=
    this <| max_background_compactions ::= total_threads - 1 |>
         <| max_background_flushes ::= 1 |> in
  match env this with
  | None => ((this, calls), Fault null_dereference)
  | Some e =>
      let calls :=
        calls ++ [{| call_env := e; call_number := total_threads;
                     call_pri := Env_LOW |}] in
      let calls :=
        calls ++ [{| call_env := e; call_number := 1;
                     call_pri := Env_HIGH |}] in
      ((this, calls), Ok tt)
  end.

(** ** The specification's vocabulary *)

(** A version pair is strictly lexicographically less than a cutoff. *)
Definition lex_lt (version cutoff : Z * Z) : Prop :=
  version.1 < cutoff.1 ∨ (version.1 = cutoff.1 ∧ version.2 < cutoff.2).

#[global] Instance lex_lt_dec version cutoff : Decision (lex_lt version cutoff).
Proof. unfold lex_lt. apply _. Defined.

(** The lines a [for_index] loop of [ROCKS_LOG_HEADER] calls emits. *)
Fixpoint index_lines {A : Type} (format : string)
    (arguments : Z -> A -> list printf_arg) (first : Z) (v : list A) :
    list log_line :=
  match v with
  | [] => []
  | x :: v' =>
      {| fmt := format; args := arguments first x |}
        :: index_lines format arguments (first + 1) v'
  end.

(** The compression of level [i] after the level-style optimization. *)
Definition level_style_compression (i : Z) : CompressionType :=
  if i <? 2 then kNoCompression else kSnappyCompression.

(** The body of the loop of [OptimizeLevelStyleCompaction], on the array
    alone. *)
Definition assign_level (v : list CompressionType) (i : Z) :
    list CompressionType :=
  <[Z.to_nat i := level_style_compression i]> v.

(** The invariant repair of the specification: an array shorter than
    [num_levels] is resized to [num_levels] entries and padded with 1. *)
Definition repaired (num_levels : Z) (additional : list Z) : list Z :=
  if Z.of_nat (length additional) <? num_levels
  then resize (Z.to_nat num_levels) 1 additional
  else additional.

(** The computation [m], started on the log [log], ends normally, with a
    value and a log that satisfy [post]. *)
Definition ends_with {A : Type} (m : Exec Logger A)
    (post : A -> Logger -> Prop) (log : Logger) : Prop :=
  match m log with
  | (log', Ok a) => post a log'
  | (_, Fault _) => False
  end.

(** The computation [m], started on the log [log], ends with the fault
    [f]. *)
Definition aborts {A : Type} (m : Exec Logger A) (f : fault) (log : Logger) :
    Prop :=
  (m log).2 = Fault f.

(** The lines of the dump for an absent optional collaborator and for an
    enumeration value without a name. *)
Definition line_s (format value : string) : log_line :=
  {| fmt := format; args := [arg_s value] |}.

(** The eras of the legacy defaults: the version that stands for every
    version with the same historical branches. *)
Definition OldDefaults_era (major minor : Z) : Z * Z :=
  if decide (lex_lt (major, minor) (4, 7)) then (4, 6)
  else if decide (major < 5) then (4, 7)
  else if decide (lex_lt (major, minor) (5, 2)) then (5, 0)
  else (5, 2).

(** The computation [m] ends with the result [r], whatever the log. *)
Definition returns {A : Type} (m : Exec Logger A) (r : result A) : Prop :=
  ∀ log, (m log).2 = r.

(** How the dump of a configuration ends: the first statement that fails
    decides. *)
Definition Dump_result (NDEBUG : bool) (ext : Externals)
    (this : ColumnFamilyOptions) : result unit :=
  match comparator this, memtable_factory this, table_factory this with
  | Some _, Some _, Some _ =>
      if negb NDEBUG
         && (bool_decide
               (compaction_style_to_string ext
                  !! CompactionStyle_value ext (compaction_style this) = None)
             || bool_decide
                  (compaction_pri_to_string ext
                     !! CompactionPri_value ext (compaction_pri this) = None))
      then Fault assertion_failure
      else if bool_decide
                (Forall (fun p => p ≠ None)
                   (table_properties_collector_factories this))
      then Ok tt
      else Fault null_dereference
  | _, _, _ => Fault null_dereference
  end.

(** ** A concrete configuration

    Sample values, used to instantiate the statements below. *)

Definition sample_AdvancedColumnFamilyOptions : AdvancedColumnFamilyOptions := {|
  max_write_buffer_number := 2;
  min_write_buffer_number_to_merge := 1;
  max_write_buffer_number_to_maintain := 0;
  inplace_update_support := false;
  inplace_update_num_locks := 10000;
  inplace_callback := None;
  memtable_prefix_bloom_size_ratio := 0%float;
  memtable_huge_page_size := 0;
  memtable_insert_with_hint_prefix_extractor := None;
  bloom_locality := 0;
  arena_block_size := 0;
  compression_per_level := [];
  num_levels := 7;
  level0_slowdown_writes_trigger := 20;
  level0_stop_writes_trigger := 36;
  target_file_size_base := 64 * 1048576;
  target_file_size_multiplier := 1;
  level_compaction_dynamic_level_bytes := false;
  max_bytes_for_level_multiplier := 10%float;
  max_bytes_for_level_multiplier_additional := [1; 1; 1; 1; 1; 1; 1];
  max_compaction_bytes := 0;
  soft_pending_compaction_bytes_limit := 64 * 1073741824;
  hard_pending_compaction_bytes_limit := 256 * 1073741824;
  compaction_style := kCompactionStyleLevel;
  compaction_pri := kByCompensatedSize;
  compaction_options_universal := {|
    size_ratio := 1;
    min_merge_width := 2;
    max_merge_width := 4294967295;
    max_size_amplification_percent := 200;
    compression_size_percent := -1
  |};
  compaction_options_fifo := {| max_table_files_size := 1073741824 |};
  max_sequential_skip_in_iterations := 8;
  memtable_factory := Some 1%nat;
  table_properties_collector_factories := [Some 5%nat];
  max_successive_merges := 0;
  optimize_filters_for_hits := false;
  paranoid_file_checks := false;
  force_consistency_checks := false;
  report_bg_io_stats := false;
  rate_limit_delay_max_milliseconds := 100
|}.

Definition sample_BlockBasedTableOptions : BlockBasedTableOptions := {|
  index_type := IndexType_cast 0;
  filter_policy := None;
  block_cache := None
|}.

Definition sample_ColumnFamilyOptions : ColumnFamilyOptions := {|
  ColumnFamilyOptions_base := sample_AdvancedColumnFamilyOptions;
  comparator := Some 2%nat;
  merge_operator := None;
  compaction_filter := None;
  compaction_filter_factory := None;
  write_buffer_size := 64 * 1048576;
  compression := kSnappyCompression;
  bottommost_compression := kDisableCompressionOption;
  compression_opts := {|
    window_bits := -14; level := -1; strategy := 0; max_dict_bytes := 0
  |};
  level0_file_num_compaction_trigger := 4;
  prefix_extractor := None;
  max_bytes_for_level_base := 256 * 1048576;
  disable_auto_compactions := false;
  table_factory := Some (BlockBasedTableFactory sample_BlockBasedTableOptions)
|}.

Definition sample_DBOptions : DBOptions := {|
  create_if_missing := false;
  create_missing_column_families := false;
  error_if_exists := false;
  paranoid_checks := true;
  env := Some 3%nat;
  rate_limiter := None;
  sst_file_manager := None;
  info_log := None;
  info_log_level := 1;
  max_open_files := -1;
  max_file_opening_threads := 16;
  max_total_wal_size := 0;
  statistics := None;
  use_fsync := false;
  db_paths := [];
  db_log_dir := "";
  wal_dir := "";
  delete_obsolete_files_period_micros := 21600000000;
  base_background_compactions := 1;
  max_background_compactions := 1;
  max_subcompactions := 1;
  max_background_flushes := 1;
  max_log_file_size := 0;
  log_file_time_to_roll := 0;
  keep_log_file_num := 1000;
  recycle_log_file_num := 0;
  max_manifest_file_size := 18446744073709551615;
  table_cache_numshardbits := 6;
  WAL_ttl_seconds := 0;
  WAL_size_limit_MB := 0;
  manifest_preallocation_size := 4194304;
  allow_mmap_reads := false;
  allow_mmap_writes := false;
  use_direct_reads := false;
  use_direct_writes := false;
  allow_fallocate := true;
  is_fd_close_on_exec := true;
  skip_log_error_on_recovery := false;
  stats_dump_period_sec := 600;
  advise_random_on_open := true;
  db_write_buffer_size := 0;
  write_buffer_manager := None;
  access_hint_on_compaction_start := 1;
  new_table_reader_for_compaction_inputs := false;
  compaction_readahead_size := 0;
  random_access_max_buffer_size := 1048576;
  writable_file_max_buffer_size := 1048576;
  use_adaptive_mutex := false;
  bytes_per_sync := 0;
  wal_bytes_per_sync := 0;
  listeners := [];
  enable_thread_tracking := false;
  delayed_write_rate := 16 * 1048576;
  enable_pipeline_write := false;
  allow_concurrent_memtable_write := true;
  enable_write_thread_adaptive_yield := true;
  write_thread_max_yield_usec := 100;
  write_thread_slow_yield_usec := 3;
  skip_stats_update_on_db_open := false;
  wal_recovery_mode := WALRecoveryMode_cast 2;
  row_cache := None;
  wal_filter := None;
  fail_if_options_file_error := false;
  dump_malloc_stats := false;
  avoid_flush_during_recovery := false;
  avoid_flush_during_shutdown := false
|}.

Definition sample_Options : Options := {|
  Options_DBOptions := sample_DBOptions;
  Options_ColumnFamilyOptions := sample_ColumnFamilyOptions
|}.

Definition sample_CompactionStyle_value (s : CompactionStyle) : Z :=
  match s with
  | kCompactionStyleLevel => 0
  | kCompactionStyleUniversal => 1
  | CompactionStyle_cast v => v
  end.

Definition sample_CompactionPri_value (p : CompactionPri) : Z :=
  match p with
  | kByCompensatedSize => 0
  | CompactionPri_cast v => v
  end.

Definition sample_Externals : Externals := {|
  catalog := sample_Options;
  BlockBasedTableOptions_ctor := sample_BlockBasedTableOptions;
  Snappy_Supported := true;
  Name := fun o => "object" +:+ pretty o;
  SliceTransform_Name := fun _ => "SliceTransform";
  TableFactory_Name := fun _ => "TableFactory";
  GetPrintableTableOptions := fun _ => "table options";
  CompressionTypeToString := fun _ => "Compression";
  compaction_style_to_string :=
    {[ 0 := "kCompactionStyleLevel"; 1 := "kCompactionStyleUniversal";
       2 := "kCompactionStyleFIFO"; 3 := "kCompactionStyleNone" ]};
  compaction_pri_to_string :=
    {[ 0 := "kByCompensatedSize"; 1 := "kOldestLargestSeqFirst";
       2 := "kOldestSmallestSeqFirst"; 3 := "kMinOverlappingRatio" ]};
  CompactionStyle_value := sample_CompactionStyle_value;
  CompactionPri_value := sample_CompactionPri_value
|}.

(** * Properties *)

(** ** ReadOptions *)

(** C9: [ReadOptions(cksum, cache)] sets [verify_checksums] to [cksum] and
    [fill_cache] to [cache]; every other field has the value that the
    default constructor [ReadOptions()] gives it. *)
Theorem ReadOptions_reduced_ctor_frame (cksum cache : bool) :
  verify_checksums (ReadOptions_ctor_bool_bool cksum cache) = cksum
  ∧ fill_cache (ReadOptions_ctor_bool_bool cksum cache) = cache
  ∧ ReadOptions_ctor_bool_bool cksum cache = {|
      verify_checksums := cksum;
      fill_cache := cache;
      snapshot := snapshot ReadOptions_ctor;
      iterate_upper_bound := iterate_upper_bound ReadOptions_ctor;
      read_tier := read_tier ReadOptions_ctor;
      tailing := tailing ReadOptions_ctor;
      managed := managed ReadOptions_ctor;
      total_order_seek := total_order_seek ReadOptions_ctor;
      prefix_same_as_start := prefix_same_as_start ReadOptions_ctor;
      pin_data := pin_data ReadOptions_ctor;
      background_purge_on_iterator_cleanup :=
        background_purge_on_iterator_cleanup ReadOptions_ctor;
      readahead_size := readahead_size ReadOptions_ctor;
      ignore_range_deletions := ignore_range_deletions ReadOptions_ctor
    |}.
Proof. unfold ReadOptions_ctor_bool_bool. simpl. auto. Qed.

(** ** Bulk load *)

(** C6: [PrepareForBulkLoad] is idempotent: applied twice it gives the same
    field values as applied once. *)
Theorem PrepareForBulkLoad_idempotent (this : Options) :
  Options_PrepareForBulkLoad (Options_PrepareForBulkLoad this)
  = Options_PrepareForBulkLoad this.
Proof. vm_compute. reflexivity. Qed.

(** ** Legacy defaults *)

Ltac version_cases :=
  repeat match goal with
  | |- context [Z.ltb ?a ?b] => destruct (Z.ltb_spec a b)
  | |- context [Z.eqb ?a ?b] => destruct (Z.eqb_spec a b)
  end;
  repeat case_decide;
  unfold lex_lt in *; simpl in *;
  first [ vm_compute; reflexivity | exfalso; lia ].

(** C5: the legacy-defaults transformers apply a historical branch exactly
    when the version pair is strictly lexicographically less than the
    branch's cutoff.  The branch of the cutoff (4,7) restores
    [max_file_opening_threads], [table_cache_numshardbits],
    [write_buffer_size] (4 MiB), [target_file_size_base],
    [max_bytes_for_level_base] and the pending-compaction limits; the branch
    of the cutoff (5,2) restores [delayed_write_rate] and
    [level0_stop_writes_trigger]; a field whose branch is not applied keeps
    its value.  At version (4,6) the pre-4.7 branch is applied, at version
    (4,7) it is not. *)
Theorem OldDefaults_strict_cutoffs (major minor : Z) (db : DBOptions)
    (cf : ColumnFamilyOptions) :
  let db' := DBOptions_OldDefaults major minor db in
  let cf' := ColumnFamilyOptions_OldDefaults major minor cf in
  (max_file_opening_threads db'
     = if decide (lex_lt (major, minor) (4, 7)) then 1
       else max_file_opening_threads db)
  ∧ (table_cache_numshardbits db'
     = if decide (lex_lt (major, minor) (4, 7)) then 4
       else table_cache_numshardbits db)
  ∧ (delayed_write_rate db'
     = if decide (lex_lt (major, minor) (5, 2)) then 2 * 1024 * 1024
       else delayed_write_rate db)
  ∧ (write_buffer_size cf'
     = if decide (lex_lt (major, minor) (4, 7)) then 4 * 1024 * 1024
       else write_buffer_size cf)
  ∧ (target_file_size_base cf'
     = if decide (lex_lt (major, minor) (4, 7)) then 2 * 1024 * 1024
       else target_file_size_base cf)
  ∧ (max_bytes_for_level_base cf'
     = if decide (lex_lt (major, minor) (4, 7)) then 10 * 1024 * 1024
       else max_bytes_for_level_base cf)
  ∧ (soft_pending_compaction_bytes_limit cf'
     = if decide (lex_lt (major, minor) (4, 7)) then 0
       else soft_pending_compaction_bytes_limit cf)
  ∧ (hard_pending_compaction_bytes_limit cf'
     = if decide (lex_lt (major, minor) (4, 7)) then 0
       else hard_pending_compaction_bytes_limit cf)
  ∧ (level0_stop_writes_trigger cf'
     = if decide (lex_lt (major, minor) (5, 2))
       then (if decide (major < 5) then 24 else 30)
       else level0_stop_writes_trigger cf)
  ∧ max_file_opening_threads (DBOptions_OldDefaults 4 6 db) = 1
  ∧ table_cache_numshardbits (DBOptions_OldDefaults 4 6 db) = 4
  ∧ write_buffer_size (ColumnFamilyOptions_OldDefaults 4 6 cf) = 4 * 1024 * 1024
  ∧ max_file_opening_threads (DBOptions_OldDefaults 4 7 db)
    = max_file_opening_threads db
  ∧ table_cache_numshardbits (DBOptions_OldDefaults 4 7 db)
    = table_cache_numshardbits db
  ∧ write_buffer_size (ColumnFamilyOptions_OldDefaults 4 7 cf)
    = write_buffer_size cf
  ∧ delayed_write_rate (DBOptions_OldDefaults 5 1 db) = 2 * 1024 * 1024
  ∧ delayed_write_rate (DBOptions_OldDefaults 5 2 db) = delayed_write_rate db.
Proof.
  intros db' cf'. subst db' cf'.
  unfold DBOptions_OldDefaults, ColumnFamilyOptions_OldDefaults.
  repeat split; try (vm_compute; reflexivity); version_cases.
Qed.

(** ** Level-style optimization *)

Section LevelStyle.

Implicit Types (v : list CompressionType) (this : ColumnFamilyOptions).

Lemma fill_prefix v (j : nat) :
  (j ≤ length v)%nat →
  foldl assign_level v (seqZ 0 (Z.of_nat j))
  = (level_style_compression <$> seqZ 0 (Z.of_nat j)) ++ drop j v.
Proof.
  induction j as [|j IH]; intros Hj.
  - by rewrite drop_0.
  - rewrite seqZ_S, foldl_app, fmap_app, IH by lia. simpl.
    destruct (lookup_lt_is_Some_2 v j) as [x Hx]; [lia|].
    rewrite (drop_S _ _ _ Hx), <- app_assoc. simpl.
    unfold assign_level. rewrite Z.add_0_l, Nat2Z.id.
    rewrite insert_app_r_alt by (rewrite length_fmap, length_seqZ; lia).
    by rewrite length_fmap, length_seqZ, Nat2Z.id, Nat.sub_diag.
Qed.

Lemma fill_all v (n : Z) :
  0 ≤ n → length v = Z.to_nat n →
  foldl assign_level v (seqZ 0 n) = level_style_compression <$> seqZ 0 n.
Proof.
  intros Hn Hlen. rewrite <- (Z2Nat.id n) at 1 2 by done.
  rewrite fill_prefix by lia.
  by rewrite <- Hlen, drop_all, app_nil_r.
Qed.

(** The loop changes [compression_per_level] only. *)
Lemma for_int_compression this v (l : list Z) :
  foldl
    (fun (this : ColumnFamilyOptions) i =>
       if i <? 2 then
         this <| compression_per_level ::=
                   <[Z.to_nat i := kNoCompression]>
                     (compression_per_level this) |>
       else
         this <| compression_per_level ::=
                   <[Z.to_nat i := kSnappyCompression]>
                     (compression_per_level this) |>)
    (this <| compression_per_level ::= v |>) l
  = this <| compression_per_level ::= foldl assign_level v l |>.
Proof.
  revert v. induction l as [|i l IH]; intros v; [done|].
  cbn [foldl]. rewrite <- IH. f_equal.
  unfold assign_level, level_style_compression.
  by destruct (i <? 2).
Qed.

Lemma resize_num_levels (n : Z) (x : CompressionType) v :
  0 ≤ n ≤ INT_MAX →
  vector_resize 1 n x v = Ok (resize (Z.to_nat n) x v).
Proof.
  intros Hn. unfold vector_resize, vector_max_size, to_size_t, PTRDIFF_MAX.
  unfold INT_MAX in Hn.
  rewrite Z.div_1_r, Z.mod_small by lia.
  destruct (Z.ltb_spec (2 ^ 63 - 1) n); [lia|done].
Qed.

(** The scalar fields after the call, however it ends. *)
Lemma OptimizeLevelStyleCompaction_fields (budget : Z) this :
  let r := (ColumnFamilyOptions_OptimizeLevelStyleCompaction budget this).1 in
  write_buffer_size r = to_size_t (budget / 4)
  ∧ min_write_buffer_number_to_merge r = 2
  ∧ max_write_buffer_number r = 6
  ∧ level0_file_num_compaction_trigger r = 2
  ∧ target_file_size_base r = budget / 8
  ∧ max_bytes_for_level_base r = budget
  ∧ compaction_style r = kCompactionStyleLevel
  ∧ num_levels r = num_levels this.
Proof.
  unfold ColumnFamilyOptions_OptimizeLevelStyleCompaction.
  destruct (vector_resize _ _ _ _) as [v|f]; [|by repeat split].
  unfold for_int. cbv zeta. rewrite for_int_compression.
  by repeat split.
Qed.

(** The per-level compression after a call with [0 <= num_levels]. *)
Lemma OptimizeLevelStyleCompaction_levels (budget : Z) this :
  0 ≤ num_levels this ≤ INT_MAX →
  let out := ColumnFamilyOptions_OptimizeLevelStyleCompaction budget this in
  out.2 = Ok tt
  ∧ compression_per_level out.1
    = level_style_compression <$> seqZ 0 (num_levels this).
Proof.
  intros Hn. unfold ColumnFamilyOptions_OptimizeLevelStyleCompaction.
  cbv zeta.
  change (num_levels (this <| write_buffer_size ::= _ |> <| _ ::= _ |>
            <| _ ::= _ |> <| _ ::= _ |> <| _ ::= _ |> <| _ ::= _ |>
            <| _ ::= _ |>)) with (num_levels this).
  rewrite resize_num_levels by done.
  unfold for_int. rewrite for_int_compression. split; [done|].
  change (compression_per_level (?x <| compression_per_level ::= ?w |>).1)
    with w.
  rewrite Z.sub_0_r. apply fill_all; [lia|]. by rewrite length_resize.
Qed.

(** A negative [num_levels] converts to a size beyond [max_size()]: the
    resize throws, after the scalar fields were assigned. *)
Lemma OptimizeLevelStyleCompaction_negative_levels (budget : Z) this :
  INT_MIN ≤ num_levels this < 0 →
  (ColumnFamilyOptions_OptimizeLevelStyleCompaction budget this).2
  = Fault length_error.
Proof.
  intros Hn. unfold ColumnFamilyOptions_OptimizeLevelStyleCompaction.
  cbv zeta.
  change (num_levels (this <| write_buffer_size ::= _ |> <| _ ::= _ |>
            <| _ ::= _ |> <| _ ::= _ |> <| _ ::= _ |> <| _ ::= _ |>
            <| _ ::= _ |>)) with (num_levels this).
  unfold vector_resize, vector_max_size, to_size_t, PTRDIFF_MAX.
  unfold INT_MIN in Hn. rewrite Z.div_1_r.
  rewrite <- (Z_mod_plus_full (num_levels this) 1 (2 ^ 64)).
  rewrite Z.mod_small by lia.
  destruct (Z.ltb_spec (2 ^ 63 - 1) (num_levels this + 1 * 2 ^ 64));
    [done|lia].
Qed.

End LevelStyle.

(** C4: for every configuration and every budget [B],
    [OptimizeLevelStyleCompaction(B)] establishes
    [write_buffer_size == B/4], [min_write_buffer_number_to_merge == 2],
    [max_write_buffer_number == 6], [level0_file_num_compaction_trigger == 2],
    [target_file_size_base == B/8], [max_bytes_for_level_base == B] and
    [compaction_style == kCompactionStyleLevel]; when [num_levels >= 3] the
    call returns, [compression_per_level[0]] and [compression_per_level[1]]
    are [kNoCompression], and [compression_per_level[i]] is
    [kSnappyCompression] for every [i] with [2 <= i < num_levels]. *)
Theorem OptimizeLevelStyleCompaction_establishes (B : Z)
    (this : ColumnFamilyOptions) :
  is_uint64_t B →
  is_int (num_levels this) →
  let out := ColumnFamilyOptions_OptimizeLevelStyleCompaction B this in
  write_buffer_size out.1 = B / 4
  ∧ min_write_buffer_number_to_merge out.1 = 2
  ∧ max_write_buffer_number out.1 = 6
  ∧ level0_file_num_compaction_trigger out.1 = 2
  ∧ target_file_size_base out.1 = B / 8
  ∧ max_bytes_for_level_base out.1 = B
  ∧ compaction_style out.1 = kCompactionStyleLevel
  ∧ (3 ≤ num_levels this →
     out.2 = Ok tt
     ∧ compression_per_level out.1 !! 0%nat = Some kNoCompression
     ∧ compression_per_level out.1 !! 1%nat = Some kNoCompression
     ∧ ∀ i : Z, 2 ≤ i < num_levels this →
         compression_per_level out.1 !! Z.to_nat i = Some kSnappyCompression).
Proof.
  intros HB Hint out. subst out.
  destruct (OptimizeLevelStyleCompaction_fields B this)
    as (Hw & Hm & Hx & Hl & Ht & Hb & Hs & _).
  repeat split; try done.
  - rewrite Hw. unfold to_size_t. apply Z.mod_small.
    unfold is_uint64_t, UINT64_MAX in HB.
    split; [apply Z.div_pos; lia|].
    apply Z.div_lt_upper_bound; lia.
  - apply OptimizeLevelStyleCompaction_levels. unfold is_int in Hint. lia.
  - destruct (OptimizeLevelStyleCompaction_levels B this) as [_ ->];
      [unfold is_int in Hint; lia|].
    rewrite list_lookup_fmap, (lookup_seqZ_lt 0 _ 0) by lia. done.
  - destruct (OptimizeLevelStyleCompaction_levels B this) as [_ ->];
      [unfold is_int in Hint; lia|].
    rewrite list_lookup_fmap, (lookup_seqZ_lt 0 _ 1) by lia. done.
  - intros i Hi.
    destruct (OptimizeLevelStyleCompaction_levels B this) as [_ ->];
      [unfold is_int in Hint; lia|].
    rewrite list_lookup_fmap, lookup_seqZ_lt by lia. simpl.
    unfold level_style_compression.
    destruct (Z.ltb_spec (0 + Z.of_nat (Z.to_nat i)) 2); [lia|done].
Qed.

Lemma OptimizeLevelStyleCompaction_establishes_witness :
  is_uint64_t 536870912
  ∧ is_int (num_levels sample_ColumnFamilyOptions)
  ∧ (let out :=
       ColumnFamilyOptions_OptimizeLevelStyleCompaction 536870912
         sample_ColumnFamilyOptions in
     write_buffer_size out.1 = 134217728
     ∧ max_bytes_for_level_base out.1 = 536870912
     ∧ out.2 = Ok tt
     ∧ compression_per_level out.1 !! 1%nat = Some kNoCompression
     ∧ compression_per_level out.1 !! 6%nat = Some kSnappyCompression).
Proof.
  assert (HB : is_uint64_t 536870912) by (vm_compute; split; discriminate).
  assert (Hn : is_int (num_levels sample_ColumnFamilyOptions))
    by (vm_compute; split; discriminate).
  split; [exact HB|]. split; [exact Hn|].
  destruct (OptimizeLevelStyleCompaction_establishes 536870912
              sample_ColumnFamilyOptions HB Hn)
    as (Hw & _ & _ & _ & _ & Hb & _ & Hlevels).
  destruct Hlevels as (Hok & _ & H1 & Hi); [vm_compute; discriminate|].
  split_and!; [exact Hw|exact Hb|exact Hok|exact H1|].
  apply (Hi 6). vm_compute. split; [discriminate|reflexivity].
Defined.

(** C10: after [OptimizeLevelStyleCompaction], [compression_per_level] has
    exactly [num_levels] entries, whatever its length before (a longer
    array is truncated), and when [num_levels <= 2] every entry is
    [kNoCompression]. *)
Theorem OptimizeLevelStyleCompaction_resizes (B : Z)
    (this : ColumnFamilyOptions) :
  is_int (num_levels this) →
  0 ≤ num_levels this →
  let out := ColumnFamilyOptions_OptimizeLevelStyleCompaction B this in
  out.2 = Ok tt
  ∧ Z.of_nat (length (compression_per_level out.1)) = num_levels this
  ∧ (num_levels this ≤ 2 →
     ∀ x, x ∈ compression_per_level out.1 → x = kNoCompression).
Proof.
  intros Hint Hn out. subst out.
  destruct (OptimizeLevelStyleCompaction_levels B this) as [Hok Hc];
    [unfold is_int in Hint; lia|].
  rewrite Hc. split; [done|]. split.
  - rewrite length_fmap, length_seqZ. lia.
  - intros Hle x Hx. apply list_elem_of_fmap in Hx as (i & -> & Hi).
    apply elem_of_seqZ in Hi. unfold level_style_compression.
    destruct (Z.ltb_spec i 2); [done|lia].
Qed.

Lemma OptimizeLevelStyleCompaction_resizes_witness :
  let this :=
    sample_ColumnFamilyOptions
      <| num_levels ::= 2 |>
      <| compression_per_level ::=
           [kSnappyCompression; kSnappyCompression; kSnappyCompression;
            kSnappyCompression; kSnappyCompression] |> in
  is_int (num_levels this)
  ∧ 0 ≤ num_levels this
  ∧ (let out := ColumnFamilyOptions_OptimizeLevelStyleCompaction 0 this in
     out.2 = Ok tt
     ∧ Z.of_nat (length (compression_per_level out.1)) = 2
     ∧ (num_levels this ≤ 2 →
        ∀ x, x ∈ compression_per_level out.1 → x = kNoCompression)).
Proof.
  intros this.
  assert (Hint : is_int (num_levels this)) by (vm_compute; split; discriminate).
  assert (Hn : 0 ≤ num_levels this) by (vm_compute; discriminate).
  split; [exact Hint|]. split; [exact Hn|].
  exact (OptimizeLevelStyleCompaction_resizes 0 this Hint Hn).
Defined.

(** ** Point lookup *)

Lemma uint64_mul_MiB (C : Z) :
  to_size_t (uint64_mul (uint64_mul C 1024) 1024)
  = (C * 1024 * 1024) mod 2 ^ 64.
Proof.
  unfold to_size_t, uint64_mul, to_uint64_t.
  rewrite Z.mod_mod by lia. by rewrite Z.mul_mod_idemp_l by lia.
Qed.

(** C7, as the claim states it, at the cache size 2^44 MiB: the product
    [block_cache_size_mb * 1024 * 1024] wraps around on [uint64_t], and the
    block cache gets the capacity 0, not [2^44 * 1024 * 1024] bytes. *)
Lemma OptimizeForPointLookup_capacity_wraps :
  is_uint64_t (2 ^ 44)
  ∧ table_factory
      (ColumnFamilyOptions_OptimizeForPointLookup sample_Externals (2 ^ 44)
         sample_ColumnFamilyOptions)
    = Some (BlockBasedTableFactory {|
        index_type := kHashSearch;
        filter_policy := Some (NewBloomFilterPolicy 10);
        block_cache := Some (NewLRUCache 0)
      |})
  ∧ 0 ≠ 2 ^ 44 * 1024 * 1024.
Proof.
  split; [vm_compute; split; discriminate|].
  split; [vm_compute; reflexivity|discriminate].
Qed.

(** C7, amended: for every configuration and every cache size [C] in MiB,
    [OptimizeForPointLookup(C)] installs a no-op prefix extractor and a
    block-based table factory configured with a hash-search index, a bloom
    filter of 10 bits per key and a block cache of capacity
    [(C * 1024 * 1024) mod 2^64] bytes, and sets
    [memtable_prefix_bloom_size_ratio] to 0.02; the capacity is
    [C * 1024 * 1024] bytes whenever [C < 2^44]. *)
Theorem OptimizeForPointLookup_installs (ext : Externals) (C : Z)
    (this : ColumnFamilyOptions) :
  is_uint64_t C →
  let r := ColumnFamilyOptions_OptimizeForPointLookup ext C this in
  prefix_extractor r = Some NewNoopTransform
  ∧ (∃ table_options,
       table_factory r = Some (BlockBasedTableFactory table_options)
       ∧ index_type table_options = kHashSearch
       ∧ filter_policy table_options = Some (NewBloomFilterPolicy 10)
       ∧ block_cache table_options
         = Some (NewLRUCache ((C * 1024 * 1024) mod 2 ^ 64))
       ∧ (C < 2 ^ 44 →
          block_cache table_options = Some (NewLRUCache (C * 1024 * 1024))))
  ∧ memtable_prefix_bloom_size_ratio r = 0.02%float.
Proof.
  intros HC r. subst r. unfold ColumnFamilyOptions_OptimizeForPointLookup.
  cbv zeta. split; [done|]. split; [|done].
  eexists. split; [reflexivity|]. cbn.
  rewrite uint64_mul_MiB. split_and!; try done.
  intros Hlt. rewrite Z.mod_small; [done|].
  unfold is_uint64_t in HC. lia.
Qed.

Lemma OptimizeForPointLookup_installs_witness :
  is_uint64_t 512
  ∧ (let r :=
       ColumnFamilyOptions_OptimizeForPointLookup sample_Externals 512
         sample_ColumnFamilyOptions in
     prefix_extractor r = Some NewNoopTransform
     ∧ (∃ table_options,
          table_factory r = Some (BlockBasedTableFactory table_options)
          ∧ index_type table_options = kHashSearch
          ∧ filter_policy table_options = Some (NewBloomFilterPolicy 10)
          ∧ block_cache table_options
            = Some (NewLRUCache ((512 * 1024 * 1024) mod 2 ^ 64))
          ∧ (512 < 2 ^ 44 →
             block_cache table_options
             = Some (NewLRUCache (512 * 1024 * 1024))))
     ∧ memtable_prefix_bloom_size_ratio r = 0.02%float).
Proof.
  assert (HC : is_uint64_t 512) by (vm_compute; split; discriminate).
  split; [exact HC|].
  exact (OptimizeForPointLookup_installs sample_Externals 512
           sample_ColumnFamilyOptions HC).
Defined.

(** ** Construction from an [Options] value *)

Section Derivation.

Variable NDEBUG : bool.
Variable ext : Externals.

Lemma assert_passes (cond : bool) :
  NDEBUG = true ∨ cond = true → assert NDEBUG cond = Ok tt.
Proof. unfold assert. by intros [-> | ->]; [|destruct NDEBUG]. Qed.

Lemma resize_additional (n : Z) (v : list Z) :
  0 ≤ n ≤ INT_MAX → vector_resize 4 n 1 v = Ok (resize (Z.to_nat n) 1 v).
Proof.
  intros Hn. unfold vector_resize, to_size_t. unfold INT_MAX in Hn.
  rewrite Z.mod_small by lia.
  change (vector_max_size 4) with (2 ^ 61 - 1).
  destruct (Z.ltb_spec (2 ^ 61 - 1) n); [lia|done].
Qed.

(** What the constructor builds when it returns: the fields of the
    initializer list copied, the array repaired, and the field outside the
    initializer list at its default. *)
Lemma AdvancedColumnFamilyOptions_ctor_Options_ok (options : Options) :
  0 ≤ num_levels options ≤ INT_MAX →
  NDEBUG = true ∨ memtable_factory options ≠ None →
  AdvancedColumnFamilyOptions_ctor_Options NDEBUG ext options
  = Ok ((options : AdvancedColumnFamilyOptions)
          <| rate_limit_delay_max_milliseconds ::=
               rate_limit_delay_max_milliseconds (catalog ext) |>
          <| max_bytes_for_level_multiplier_additional ::=
               repaired (num_levels options)
                 (max_bytes_for_level_multiplier_additional options) |>).
Proof.
  intros Hn Hassert. unfold AdvancedColumnFamilyOptions_ctor_Options.
  cbv zeta. cbn [memtable_factory num_levels
                 max_bytes_for_level_multiplier_additional].
  rewrite assert_passes
    by (destruct Hassert; [by left|right; by apply bool_decide_eq_true]).
  change (Ok () ;; ?m) with m.
  unfold to_unsigned_int, repaired. unfold INT_MAX in Hn.
  rewrite Z.mod_small by lia.
  destruct (_ <? _); [|done].
  by rewrite resize_additional.
Qed.

Lemma ColumnFamilyOptions_ctor_Options_ok (options : Options) :
  0 ≤ num_levels options ≤ INT_MAX →
  NDEBUG = true ∨ memtable_factory options ≠ None →
  ColumnFamilyOptions_ctor_Options NDEBUG ext options
  = Ok ((options : ColumnFamilyOptions)
          <| rate_limit_delay_max_milliseconds ::=
               rate_limit_delay_max_milliseconds (catalog ext) |>
          <| max_bytes_for_level_multiplier_additional ::=
               repaired (num_levels options)
                 (max_bytes_for_level_multiplier_additional options) |>).
Proof.
  intros Hn Hassert. unfold ColumnFamilyOptions_ctor_Options.
  by rewrite AdvancedColumnFamilyOptions_ctor_Options_ok.
Qed.

End Derivation.

(** C2: for every [Options] value with [num_levels >= 1], constructing
    [AdvancedColumnFamilyOptions] from it (the construction completes when
    [memtable_factory] is non-null or assertions are compiled out) leaves
    [max_bytes_for_level_multiplier_additional] with at least [num_levels]
    entries; the entries copied from the source are unchanged and every
    entry beyond the source array's length equals 1. *)
Theorem ctor_Options_repairs_additional (NDEBUG : bool) (ext : Externals)
    (options : Options) :
  is_int (num_levels options) →
  1 ≤ num_levels options →
  NDEBUG = true ∨ memtable_factory options ≠ None →
  ∃ this,
    AdvancedColumnFamilyOptions_ctor_Options NDEBUG ext options = Ok this
    ∧ num_levels this = num_levels options
    ∧ num_levels this
      ≤ Z.of_nat (length (max_bytes_for_level_multiplier_additional this))
    ∧ (∀ (i : nat) (x : Z),
         max_bytes_for_level_multiplier_additional options !! i = Some x →
         max_bytes_for_level_multiplier_additional this !! i = Some x)
    ∧ (∀ i : nat,
         (length (max_bytes_for_level_multiplier_additional options) ≤ i
          < length (max_bytes_for_level_multiplier_additional this))%nat →
         max_bytes_for_level_multiplier_additional this !! i = Some 1).
Proof.
  intros Hint Hn Hassert. eexists. split.
  { apply AdvancedColumnFamilyOptions_ctor_Options_ok; [|done].
    unfold is_int in Hint. lia. }
  simpl_fields. split; [done|]. unfold repaired.
  destruct (Z.ltb_spec
              (Z.of_nat (length (max_bytes_for_level_multiplier_additional
                                   options)))
              (num_levels options)) as [Hshort|Hlong].
  - rewrite length_resize. split_and!.
    + lia.
    + intros i x Hx. rewrite lookup_resize; [done| |by eapply lookup_lt_Some].
      apply lookup_lt_Some in Hx. lia.
    + intros i [Hlo Hhi]. by apply lookup_resize_new.
  - split_and!; [lia|done|]. intros i ?. lia.
Qed.

Lemma ctor_Options_repairs_additional_witness :
  let options := sample_Options <| num_levels ::= 10 |> in
  is_int (num_levels options)
  ∧ 1 ≤ num_levels options
  ∧ (false = true ∨ memtable_factory options ≠ None)
  ∧ ∃ this,
      AdvancedColumnFamilyOptions_ctor_Options false sample_Externals options
      = Ok this
      ∧ max_bytes_for_level_multiplier_additional options
        = [1; 1; 1; 1; 1; 1; 1]
      ∧ max_bytes_for_level_multiplier_additional this !! 9%nat = Some 1.
Proof.
  intros options.
  assert (Hint : is_int (num_levels options))
    by (vm_compute; split; discriminate).
  assert (Hn : 1 ≤ num_levels options) by (vm_compute; discriminate).
  assert (Hm : false = true ∨ memtable_factory options ≠ None)
    by (right; vm_compute; discriminate).
  split_and!; [exact Hint|exact Hn|exact Hm|].
  destruct (ctor_Options_repairs_additional false sample_Externals options
              Hint Hn Hm) as (this & Hok & _ & _ & _ & Hpad).
  exists this. split_and!; [exact Hok|reflexivity|].
  apply Hpad.
  rewrite AdvancedColumnFamilyOptions_ctor_Options_ok in Hok;
    [|vm_compute; split; discriminate|exact Hm].
  injection Hok as <-. vm_compute. split; repeat constructor.
Defined.

(** C1, as the claim states it, at an [Options] value whose [num_levels]
    was raised to 10 while the array kept its 7 entries: splitting and
    reassembling completes, and the result differs from the original in
    [max_bytes_for_level_multiplier_additional]. *)
Lemma Options_split_reassemble_not_identity :
  let o := sample_Options <| num_levels ::= 10 |> in
  ∃ r,
    Options_split_reassemble false sample_Externals o = Ok r
    ∧ max_bytes_for_level_multiplier_additional o = [1; 1; 1; 1; 1; 1; 1]
    ∧ max_bytes_for_level_multiplier_additional r
      = [1; 1; 1; 1; 1; 1; 1; 1; 1; 1]
    ∧ r ≠ o.
Proof.
  intros o. eexists. split; [vm_compute; reflexivity|].
  split; [reflexivity|]. split; [reflexivity|].
  intros H.
  apply (f_equal (fun x : Options =>
                    length (max_bytes_for_level_multiplier_additional x))) in H.
  vm_compute in H. discriminate.
Qed.

(** C1, amended: for every [Options] value [o] (with [0 <= num_levels], and
    whose construction passes the assertion on [memtable_factory]),
    constructing [ColumnFamilyOptions(o)] and [DBOptions(o)] and
    reassembling an [Options] from the two parts yields a value that has
    [o]'s value in every field of the two initializer lists, except that
    [max_bytes_for_level_multiplier_additional], when shorter than
    [num_levels], is resized to [num_levels] entries and padded with 1.
    When the array has at least [num_levels] entries, every field of the
    initializer lists is unchanged.  (The statement leaves the field
    outside the initializer lists, [rate_limit_delay_max_milliseconds],
    open.) *)
Theorem Options_split_reassemble_fields (NDEBUG : bool) (ext : Externals)
    (o : Options) :
  is_int (num_levels o) →
  0 ≤ num_levels o →
  NDEBUG = true ∨ memtable_factory o ≠ None →
  ∃ r,
    Options_split_reassemble NDEBUG ext o = Ok r
    ∧ r <| rate_limit_delay_max_milliseconds ::=
             rate_limit_delay_max_milliseconds o |>
      = o <| max_bytes_for_level_multiplier_additional ::=
               repaired (num_levels o)
                 (max_bytes_for_level_multiplier_additional o) |>
    ∧ (num_levels o
         ≤ Z.of_nat (length (max_bytes_for_level_multiplier_additional o)) →
       r <| rate_limit_delay_max_milliseconds ::=
               rate_limit_delay_max_milliseconds o |>
       = o).
Proof.
  intros Hint Hn Hassert. unfold Options_split_reassemble.
  rewrite ColumnFamilyOptions_ctor_Options_ok;
    [|unfold is_int in Hint; lia|done].
  eexists. split; [reflexivity|].
  assert (Hlong :
    num_levels o
      ≤ Z.of_nat (length (max_bytes_for_level_multiplier_additional o)) →
    repaired (num_levels o) (max_bytes_for_level_multiplier_additional o)
    = max_bytes_for_level_multiplier_additional o).
  { intros Hle. unfold repaired.
    destruct (Z.ltb_spec
                (Z.of_nat (length (max_bytes_for_level_multiplier_additional
                                     o)))
                (num_levels o)); [lia|done]. }
  split.
  - generalize (repaired (num_levels o)
                  (max_bytes_for_level_multiplier_additional o)).
    intros v. destruct o as [[] [[] ]]. reflexivity.
  - intros Hle. rewrite (Hlong Hle). destruct o as [[] [[] ]]. reflexivity.
Qed.

Lemma Options_split_reassemble_fields_witness :
  is_int (num_levels sample_Options)
  ∧ 0 ≤ num_levels sample_Options
  ∧ (true = true ∨ memtable_factory sample_Options ≠ None)
  ∧ ∃ r,
      Options_split_reassemble true sample_Externals sample_Options = Ok r
      ∧ r <| rate_limit_delay_max_milliseconds ::=
               rate_limit_delay_max_milliseconds sample_Options |>
        = sample_Options.
Proof.
  assert (Hint : is_int (num_levels sample_Options))
    by (vm_compute; split; discriminate).
  assert (Hn : 0 ≤ num_levels sample_Options) by (vm_compute; discriminate).
  assert (Hm : true = true ∨ memtable_factory sample_Options ≠ None)
    by (left; reflexivity).
  split_and!; [exact Hint|exact Hn|exact Hm|].
  destruct (Options_split_reassemble_fields true sample_Externals
              sample_Options Hint Hn Hm) as (r & Hr & _ & Hsame).
  exists r. split; [exact Hr|]. apply Hsame. vm_compute. discriminate.
Defined.

(** The field outside the initializer lists has its default after the
    construction, whatever its value in the source. *)
Lemma ctor_Options_rate_limit_delay (NDEBUG : bool) (ext : Externals)
    (options : Options) (this : ColumnFamilyOptions) :
  ColumnFamilyOptions_ctor_Options NDEBUG ext options = Ok this →
  rate_limit_delay_max_milliseconds this
  = rate_limit_delay_max_milliseconds (catalog ext).
Proof.
  unfold ColumnFamilyOptions_ctor_Options,
    AdvancedColumnFamilyOptions_ctor_Options.
  cbv zeta. destruct (assert _ _); [|discriminate].
  change (Ok () ;; ?m) with m.
  destruct (_ <? _).
  - destruct (vector_resize _ _ _ _); [|discriminate].
    intros [= <-]. reflexivity.
  - intros [= <-]. reflexivity.
Qed.

(** ** Required collaborators *)

(** The constructor copies both factory pointers. *)
Lemma ctor_Options_copies_factories (NDEBUG : bool) (ext : Externals)
    (options : Options) (this : ColumnFamilyOptions) :
  ColumnFamilyOptions_ctor_Options NDEBUG ext options = Ok this →
  memtable_factory this = memtable_factory options
  ∧ table_factory this = table_factory options.
Proof.
  unfold ColumnFamilyOptions_ctor_Options,
    AdvancedColumnFamilyOptions_ctor_Options.
  cbv zeta. destruct (assert _ _); [|discriminate].
  change (Ok () ;; ?m) with m.
  destruct (_ <? _).
  - destruct (vector_resize _ _ _ _); [|discriminate].
    intros [= <-]. split; reflexivity.
  - intros [= <-]. split; reflexivity.
Qed.

(** C3, as the claim states it, at an [Options] value whose [table_factory]
    is null: the construction of [ColumnFamilyOptions] from it completes,
    with assertions enabled, and the result's [table_factory] is null. *)
Lemma ctor_Options_null_table_factory :
  let options := sample_Options <| table_factory ::= None |> in
  ∃ this,
    ColumnFamilyOptions_ctor_Options false sample_Externals options = Ok this
    ∧ table_factory this = None.
Proof.
  intros options. eexists. split; [vm_compute; reflexivity|reflexivity].
Qed.

(** C3, amended: default construction of [AdvancedColumnFamilyOptions] and
    of [ColumnFamilyOptions] leaves [memtable_factory] non-null (the default
    of the field, which is non-null) and [table_factory] non-null (a new
    [BlockBasedTableFactory]).  Construction from an [Options] value copies
    both pointers: the result's [memtable_factory] and [table_factory] are
    non-null when the source's are, and the construction then completes
    (for [0 <= num_levels]). *)
Theorem factories_non_null (NDEBUG : bool) (ext : Externals) :
  memtable_factory (catalog ext) ≠ None →
  (∃ this,
     AdvancedColumnFamilyOptions_ctor NDEBUG ext = Ok this
     ∧ memtable_factory this ≠ None)
  ∧ (∃ this,
       ColumnFamilyOptions_ctor NDEBUG ext = Ok this
       ∧ memtable_factory this ≠ None
       ∧ table_factory this ≠ None)
  ∧ (∀ (options : Options) (this : ColumnFamilyOptions),
       ColumnFamilyOptions_ctor_Options NDEBUG ext options = Ok this →
       memtable_factory this = memtable_factory options
       ∧ table_factory this = table_factory options)
  ∧ (∀ options : Options,
       is_int (num_levels options) →
       0 ≤ num_levels options →
       memtable_factory options ≠ None →
       table_factory options ≠ None →
       ∃ this,
         ColumnFamilyOptions_ctor_Options NDEBUG ext options = Ok this
         ∧ memtable_factory this ≠ None
         ∧ table_factory this ≠ None).
Proof.
  intros Hcatalog.
  assert (Hctor :
    AdvancedColumnFamilyOptions_ctor NDEBUG ext
    = Ok (catalog ext : AdvancedColumnFamilyOptions)).
  { unfold AdvancedColumnFamilyOptions_ctor. cbv zeta.
    rewrite assert_passes; [done|]. right. by apply bool_decide_eq_true. }
  split_and!.
  - eexists. split; [exact Hctor|done].
  - unfold ColumnFamilyOptions_ctor. rewrite Hctor.
    eexists. split; [reflexivity|]. split; [exact Hcatalog|done].
  - apply ctor_Options_copies_factories.
  - intros options Hint Hn Hm Ht.
    destruct (ColumnFamilyOptions_ctor_Options NDEBUG ext options)
      as [this|f] eqn:Hthis.
    + exists this. split; [done|].
      destruct (ctor_Options_copies_factories _ _ _ _ Hthis) as [-> ->].
      done.
    + rewrite ColumnFamilyOptions_ctor_Options_ok in Hthis;
        [discriminate|unfold is_int in Hint; lia|by right].
Qed.

Lemma factories_non_null_witness :
  memtable_factory (catalog sample_Externals) ≠ None
  ∧ (∃ this,
       ColumnFamilyOptions_ctor false sample_Externals = Ok this
       ∧ memtable_factory this ≠ None
       ∧ table_factory this ≠ None)
  ∧ (∃ this,
       ColumnFamilyOptions_ctor_Options false sample_Externals sample_Options
       = Ok this
       ∧ memtable_factory this ≠ None
       ∧ table_factory this ≠ None).
Proof.
  assert (Hcatalog : memtable_factory (catalog sample_Externals) ≠ None)
    by (vm_compute; discriminate).
  destruct (factories_non_null false sample_Externals Hcatalog)
    as (_ & Hdefault & _ & Hderived).
  split_and!; [exact Hcatalog|exact Hdefault|].
  apply Hderived.
  - vm_compute. split; discriminate.
  - vm_compute. discriminate.
  - vm_compute. discriminate.
  - vm_compute. discriminate.
Defined.

(** ** The diagnostic dump *)

Section DumpProperties.

Variable NDEBUG : bool.
Variable ext : Externals.

Implicit Types (log : Logger) (this : ColumnFamilyOptions).

Lemma ends_with_ret {A : Type} (a : A) (post : A → Logger → Prop) log :
  post a log → ends_with (mret a) post log.
Proof. done. Qed.

Lemma ends_with_bind {A B : Type} (m : Exec Logger A) (k : A → Exec Logger B)
    (post : B → Logger → Prop) log :
  ends_with m (fun a log' => ends_with (k a) post log') log →
  ends_with (m ≫= k) post log.
Proof.
  unfold ends_with, mbind, Exec_bind.
  by destruct (m log) as [log' [a|f]].
Qed.

Lemma ends_with_header (format : string) (arguments : list printf_arg)
    (post : unit → Logger → Prop) log :
  post tt (log ++ [{| fmt := format; args := arguments |}]) →
  ends_with (ROCKS_LOG_HEADER format arguments) post log.
Proof. done. Qed.

Lemma ends_with_deref {A : Type} (p : option A) (x : A)
    (post : A → Logger → Prop) log :
  p = Some x → post x log → ends_with (deref p) post log.
Proof. by intros ->. Qed.

Lemma ends_with_for_index {A : Type} (format : string)
    (arguments : Z → A → list printf_arg) (first : Z) (v : list A)
    (post : unit → Logger → Prop) log :
  post tt (log ++ index_lines format arguments first v) →
  ends_with
    (for_index (fun i x => ROCKS_LOG_HEADER format (arguments i x)) first v)
    post log.
Proof.
  revert first log. induction v as [|x v IH]; intros first log Hpost.
  - simpl in Hpost. by rewrite app_nil_r in Hpost.
  - cbn [for_index]. apply ends_with_bind, ends_with_header, IH.
    by rewrite <- app_assoc.
Qed.

(** On at most [UINT_MAX] elements the 32-bit index does not wrap. *)
Lemma for_index_unsigned_int_bounded {St A : Type}
    (body : Z → A → Exec St unit) (v : list A) :
  Z.of_nat (length v) ≤ UINT_MAX →
  for_index_unsigned_int body v = for_index body 0 v.
Proof.
  intros Hsize. unfold for_index_unsigned_int.
  by rewrite (proj2 (Z.leb_le _ _) Hsize).
Qed.

Lemma ends_with_for_index_unsigned_int {A : Type} (format : string)
    (arguments : Z → A → list printf_arg) (v : list A)
    (post : unit → Logger → Prop) log :
  Z.of_nat (length v) ≤ UINT_MAX →
  post tt (log ++ index_lines format arguments 0 v) →
  ends_with
    (for_index_unsigned_int
       (fun i x => ROCKS_LOG_HEADER format (arguments i x)) v)
    post log.
Proof.
  intros Hsize Hpost. rewrite for_index_unsigned_int_bounded by done.
  by apply ends_with_for_index.
Qed.

(** Either branch of a conditional between a loop of lines and one line
    appends lines to the log. *)
Lemma ends_with_lines {A : Type} (cond : bool) (format format' : string)
    (arguments : Z → A → list printf_arg) (arguments' : list printf_arg)
    (v : list A) (post : unit → Logger → Prop) log :
  Z.of_nat (length v) ≤ UINT_MAX →
  (∀ lines, post tt (log ++ lines)) →
  ends_with
    (if cond
     then for_index_unsigned_int
            (fun i x => ROCKS_LOG_HEADER format (arguments i x)) v
     else ROCKS_LOG_HEADER format' arguments')
    post log.
Proof.
  intros Hsize Hpost. destruct cond.
  - by apply ends_with_for_index_unsigned_int.
  - apply ends_with_header, Hpost.
Qed.

Lemma ends_with_collector_names (names : string) (v : list (option object))
    (post : string → Logger → Prop) log :
  Forall (fun p => p ≠ None) v →
  (∀ names', post names' log) →
  ends_with
    (for_range
       (fun names collector_factory =>
          f ← deref collector_factory;
          mret (names +:+ Name ext f +:+ "; "))
       names v)
    post log.
Proof.
  intros Hv Hpost. revert names.
  induction Hv as [|[f|] v Hf _ IH]; intros names; [apply Hpost| |done].
  cbn [for_range]. apply ends_with_bind.
  apply ends_with_bind. eapply ends_with_deref; [done|].
  apply ends_with_ret, IH.
Qed.

Lemma ends_with_enum_known (table : gmap Z string) (value : Z) (name : string)
    (post : string → Logger → Prop) log :
  table !! value = Some name →
  post name log →
  ends_with (enum_to_string NDEBUG table value) post log.
Proof. unfold enum_to_string. by intros ->. Qed.

Lemma ends_with_enum_unknown (table : gmap Z string) (value : Z)
    (post : string → Logger → Prop) log :
  table !! value = None →
  NDEBUG = true →
  post ("unknown_" +:+ std_to_string value) log →
  ends_with (enum_to_string NDEBUG table value) post log.
Proof. unfold enum_to_string. by intros -> ->. Qed.

(** With assertions enabled, a value without a name aborts the lookup. *)
Lemma enum_to_string_asserts (table : gmap Z string) (value : Z) log :
  table !! value = None →
  NDEBUG = false →
  enum_to_string NDEBUG table value log = (log, Fault assertion_failure).
Proof. unfold enum_to_string. by intros -> ->. Qed.

Lemma aborts_enum_unknown (table : gmap Z string) (value : Z) log :
  table !! value = None →
  NDEBUG = false →
  aborts (enum_to_string NDEBUG table value) assertion_failure log.
Proof. intros. unfold aborts. by rewrite enum_to_string_asserts. Qed.

Lemma aborts_bind_here {A B : Type} (m : Exec Logger A)
    (k : A → Exec Logger B) (f : fault) log :
  aborts m f log → aborts (m ≫= k) f log.
Proof.
  unfold aborts, mbind, Exec_bind.
  destruct (m log) as [log' [a|f']]; [done|]. by intros [= ->].
Qed.

Lemma aborts_bind_later {A B : Type} (m : Exec Logger A)
    (k : A → Exec Logger B) (f : fault) log :
  ends_with m (fun a log' => aborts (k a) f log') log →
  aborts (m ≫= k) f log.
Proof.
  unfold ends_with, aborts, mbind, Exec_bind.
  by destruct (m log) as [log' [a|f']].
Qed.

Lemma ends_with_run {A : Type} (m : Exec Logger A)
    (post : A → Logger → Prop) log :
  ends_with m post log → ∃ a log', m log = (log', Ok a) ∧ post a log'.
Proof.
  unfold ends_with. destruct (m log) as [log' [a|f]]; [eauto|done].
Qed.

Lemma ends_with_unit (m : Exec Logger unit) (post : Logger → Prop) log :
  ends_with m (fun _ log' => post log') log →
  ∃ log', m log = (log', Ok tt) ∧ post log'.
Proof.
  intros H. apply ends_with_run in H as ([] & log' & Hrun & Hpost). eauto.
Qed.

End DumpProperties.

(** One statement of the dump. *)
Ltac dump_bind := first [apply ends_with_bind | apply aborts_bind_later].

Ltac dump_step :=
  lazymatch goal with
  | |- _ (mbind _ (ROCKS_LOG_HEADER _ _)) _ _ =>
      dump_bind; apply ends_with_header
  | |- _ (mbind _ (deref _)) _ _ =>
      dump_bind; eapply ends_with_deref; [eassumption|]
  | |- _ (mbind _ (for_index _ _ _)) _ _ =>
      dump_bind; apply ends_with_for_index
  | |- _ (mbind _ (if _ then _ else _)) _ _ =>
      dump_bind; apply ends_with_lines; [assumption|intros ?]
  | |- _ (mbind _ (enum_to_string _ _ _)) _ _ =>
      first
        [ dump_bind; eapply ends_with_enum_known; [eassumption|]
        | dump_bind; apply ends_with_enum_unknown; [assumption|assumption|]
        | apply aborts_bind_here, aborts_enum_unknown; assumption ]
  | |- _ (mbind _ (for_range _ _ _)) _ _ =>
      dump_bind; apply ends_with_collector_names; [assumption|intros ?]
  | |- ends_with (ROCKS_LOG_HEADER _ _) _ _ => apply ends_with_header
  end;
  cbv beta.

(** A line of the log, looked for from its end. *)
Ltac find_line :=
  repeat first
    [ apply elem_of_app; right; apply list_elem_of_singleton; reflexivity
    | apply elem_of_app; left ].
(** C8, as the claim states it, in a build that keeps assertions, at a
    configuration whose [compaction_style] has no entry in the name table
    (every collaborator the dump dereferences is there): the dump does not
    emit an "unknown" string, it fails the [assert(false)] of that branch. *)
Lemma Dump_unknown_style_asserts :
  let this :=
    sample_ColumnFamilyOptions <| compaction_style ::= CompactionStyle_cast 7 |> in
  compaction_style_to_string sample_Externals
    !! CompactionStyle_value sample_Externals (compaction_style this) = None
  ∧ (ColumnFamilyOptions_Dump false sample_Externals this []).2
    = Fault assertion_failure.
Proof. intros this. split; vm_compute; reflexivity. Qed.

(** C8, amended: for a configuration whose comparator, memtable factory
    and table factory are non-null and whose [compression_per_level] has at
    most [UINT_MAX] entries (the 32-bit index of the loop over it wraps on a
    longer one, and the dump never gets past that loop): when the
    table-properties collector factories are non-null too, the dump
    completes and emits the literal "None" for a null merge operator,
    compaction filter or compaction filter factory, and for a
    [compaction_style] or [compaction_pri] value with no entry in the name
    table it completes and emits "unknown_" followed by the value in a build
    with [NDEBUG], where the assertion of that branch is compiled out; in a
    build that keeps assertions, such a value fails the assertion. *)
Theorem Dump_degenerate_fields (NDEBUG : bool) (ext : Externals)
    (this : ColumnFamilyOptions) (log : Logger) :
  comparator this ≠ None →
  memtable_factory this ≠ None →
  table_factory this ≠ None →
  Z.of_nat (length (compression_per_level this)) ≤ UINT_MAX →
  (Forall (fun p => p ≠ None) (table_properties_collector_factories this) →
   NDEBUG = true
   ∨ (is_Some (compaction_style_to_string ext
                 !! CompactionStyle_value ext (compaction_style this))
      ∧ is_Some (compaction_pri_to_string ext
                   !! CompactionPri_value ext (compaction_pri this))) →
   ∃ log',
     ColumnFamilyOptions_Dump NDEBUG ext this log = (log', Ok tt)
     ∧ (merge_operator this = None →
        line_s "          Options.merge_operator: %s" "None" ∈ log')
     ∧ (compaction_filter this = None →
        line_s "       Options.compaction_filter: %s" "None" ∈ log')
     ∧ (compaction_filter_factory this = None →
        line_s "       Options.compaction_filter_factory: %s" "None" ∈ log')
     ∧ (compaction_style_to_string ext
          !! CompactionStyle_value ext (compaction_style this) = None →
        line_s "                        Options.compaction_style: %s"
          ("unknown_"
           +:+ std_to_string
                 (CompactionStyle_value ext (compaction_style this)))
        ∈ log')
     ∧ (compaction_pri_to_string ext
          !! CompactionPri_value ext (compaction_pri this) = None →
        line_s "                          Options.compaction_pri: %s"
          ("unknown_"
           +:+ std_to_string (CompactionPri_value ext (compaction_pri this)))
        ∈ log'))
  ∧ (NDEBUG = false →
     compaction_style_to_string ext
       !! CompactionStyle_value ext (compaction_style this) = None
     ∨ compaction_pri_to_string ext
         !! CompactionPri_value ext (compaction_pri this) = None →
     (ColumnFamilyOptions_Dump NDEBUG ext this log).2
     = Fault assertion_failure).
Proof.
  intros Hc Hm Ht Hsize.
  destruct (comparator this) as [c|] eqn:Ec; [clear Hc|done].
  destruct (memtable_factory this) as [m|] eqn:Em; [clear Hm|done].
  destruct (table_factory this) as [t|] eqn:Et; [clear Ht|done].
  split.
  - intros Hcollectors Hnames.
    destruct (compaction_style_to_string ext !! _) as [style|] eqn:Es;
      destruct (compaction_pri_to_string ext !! _) as [pri|] eqn:Ep;
      try (assert (HNDEBUG : NDEBUG = true)
             by (destruct Hnames as [|[[? ?] [? ?]]]; [done|discriminate]));
      clear Hnames;
      apply ends_with_unit; unfold ColumnFamilyOptions_Dump;
      repeat dump_step;
      (split_and!; intros Hnone; try discriminate Hnone; try rewrite Hnone;
       find_line).
  - intros HNDEBUG Hunnamed.
    change (aborts (ColumnFamilyOptions_Dump NDEBUG ext this)
              assertion_failure log).
    destruct (compaction_style_to_string ext !! _) as [style|] eqn:Es;
      [destruct Hunnamed as [|Ep]; [done|]|clear Hunnamed];
      unfold ColumnFamilyOptions_Dump; repeat dump_step.
Qed.

Lemma Dump_degenerate_fields_witness :
  let this :=
    sample_ColumnFamilyOptions <| compaction_style ::= CompactionStyle_cast 7 |> in
  comparator this ≠ None
  ∧ memtable_factory this ≠ None
  ∧ table_factory this ≠ None
  ∧ Z.of_nat (length (compression_per_level this)) ≤ UINT_MAX
  ∧ Forall (fun p => p ≠ None) (table_properties_collector_factories this)
  ∧ compaction_filter this = None
  ∧ compaction_style_to_string sample_Externals
      !! CompactionStyle_value sample_Externals (compaction_style this) = None
  ∧ ∃ log',
      ColumnFamilyOptions_Dump true sample_Externals this [] = (log', Ok tt)
      ∧ line_s "       Options.compaction_filter: %s" "None" ∈ log'
      ∧ line_s "                        Options.compaction_style: %s"
          "unknown_7" ∈ log'.
Proof.
  intros this.
  assert (Hc : comparator this ≠ None) by (vm_compute; discriminate).
  assert (Hm : memtable_factory this ≠ None) by (vm_compute; discriminate).
  assert (Ht : table_factory this ≠ None) by (vm_compute; discriminate).
  assert (Hsize : Z.of_nat (length (compression_per_level this)) ≤ UINT_MAX)
    by (vm_compute; discriminate).
  assert (Hf : Forall (fun p : option object => p ≠ None)
                 (table_properties_collector_factories this))
    by (repeat constructor; discriminate).
  assert (Hfilter : compaction_filter this = None) by reflexivity.
  assert (Hstyle :
    compaction_style_to_string sample_Externals
      !! CompactionStyle_value sample_Externals (compaction_style this)
    = None) by (vm_compute; reflexivity).
  split_and!;
    [exact Hc|exact Hm|exact Ht|exact Hsize|exact Hf|exact Hfilter
    |exact Hstyle|].
  destruct (Dump_degenerate_fields true sample_Externals this [] Hc Hm Ht Hsize)
    as [Hcompletes _].
  destruct (Hcompletes Hf (or_introl eq_refl))
    as (log' & Hrun & _ & Hnone & _ & Hunknown & _).
  exists log'. split_and!; [exact Hrun|exact (Hnone Hfilter)|].
  exact (Hunknown Hstyle).
Defined.

(** * Further properties *)

(** ** Legacy defaults, by era *)

(** X1: the legacy defaults depend on the version only through its era:
    versions before (4,7), versions from (4,7) with major version below 5,
    versions (5,0) and (5,1), and versions from (5,2) on.
    [Options::OldDefaults] gives the same options for every version of an
    era as for the era's representative (4,6), (4,7), (5,0) or (5,2). *)
Theorem OldDefaults_by_era (major minor : Z) (this : Options) :
  Options_OldDefaults major minor this
  = Options_OldDefaults (OldDefaults_era major minor).1
      (OldDefaults_era major minor).2 this.
Proof.
  unfold OldDefaults_era.
  repeat case_decide; cbn [fst snd];
    unfold Options_OldDefaults, DBOptions_OldDefaults,
      ColumnFamilyOptions_OldDefaults;
    unfold lex_lt in *; cbn [fst snd] in *;
    repeat match goal with
    | |- context [Z.ltb ?a ?b] =>
        lazymatch a with
        | Zpos _ => fail
        | _ => destruct (Z.ltb_spec a b); try (exfalso; lia)
        end
    | |- context [Z.eqb ?a ?b] =>
        lazymatch a with
        | Zpos _ => fail
        | _ => destruct (Z.eqb_spec a b); try (exfalso; lia)
        end
    end;
    vm_compute; reflexivity.
Qed.

(** X2: for a version that is not before (5,2), [Options::OldDefaults] is
    not the identity: it assigns [compaction_pri], [max_open_files],
    [base_background_compactions] and [wal_recovery_mode], and leaves every
    other field unchanged. *)
Theorem OldDefaults_current_version (major minor : Z) (this : Options) :
  ¬ lex_lt (major, minor) (5, 2) →
  Options_OldDefaults major minor this
  = this <| compaction_pri ::= kByCompensatedSize |>
         <| max_open_files ::= 5000 |>
         <| base_background_compactions ::= -1 |>
         <| wal_recovery_mode ::= kTolerateCorruptedTailRecords |>.
Proof.
  intros Hcurrent. unfold lex_lt in Hcurrent. cbn [fst snd] in Hcurrent.
  unfold Options_OldDefaults, DBOptions_OldDefaults,
    ColumnFamilyOptions_OldDefaults.
  repeat match goal with
  | |- context [Z.ltb major ?b] =>
      destruct (Z.ltb_spec major b); try (exfalso; lia)
  | |- context [Z.ltb minor ?b] =>
      destruct (Z.ltb_spec minor b); try (exfalso; lia)
  | |- context [Z.eqb major ?b] =>
      destruct (Z.eqb_spec major b); try (exfalso; lia)
  end;
  destruct this as [[] [[] ]]; vm_compute; reflexivity.
Qed.

Lemma OldDefaults_current_version_witness :
  ¬ lex_lt (5, 2) (5, 2)
  ∧ max_file_opening_threads (Options_OldDefaults 5 2 sample_Options) = 16
  ∧ max_open_files (Options_OldDefaults 5 2 sample_Options) = 5000
  ∧ level0_stop_writes_trigger (Options_OldDefaults 5 2 sample_Options) = 36.
Proof.
  assert (H : ¬ lex_lt (5, 2) (5, 2))
    by (unfold lex_lt; cbn [fst snd]; lia).
  split; [exact H|].
  rewrite (OldDefaults_current_version 5 2 sample_Options H).
  split_and!; reflexivity.
Defined.

(** X3: [Options::OptimizeForSmallDb], [Options::OldDefaults] (for a fixed
    version) and [OptimizeUniversalStyleCompaction] (for a fixed budget) are
    idempotent: none of them creates an object, and each assigns values
    that do not depend on the fields it assigns. *)
Theorem presets_idempotent (major minor budget : Z)
    (options : Options) (this : ColumnFamilyOptions) :
  Options_OptimizeForSmallDb (Options_OptimizeForSmallDb options)
  = Options_OptimizeForSmallDb options
  ∧ Options_OldDefaults major minor (Options_OldDefaults major minor options)
    = Options_OldDefaults major minor options
  ∧ ColumnFamilyOptions_OptimizeUniversalStyleCompaction budget
      (ColumnFamilyOptions_OptimizeUniversalStyleCompaction budget this)
    = ColumnFamilyOptions_OptimizeUniversalStyleCompaction budget this.
Proof.
  split_and!.
  - vm_compute. reflexivity.
  - unfold Options_OldDefaults, DBOptions_OldDefaults,
      ColumnFamilyOptions_OldDefaults.
    destruct (major <? 4), (major =? 4), (minor <? 7), (major <? 5),
      (major =? 5), (minor <? 2); vm_compute; reflexivity.
  - unfold ColumnFamilyOptions_OptimizeUniversalStyleCompaction.
    generalize (to_size_t (budget `div` 4)). intros w.
    vm_compute. reflexivity.
Qed.

(** ** Level-style and universal-style optimization, composed *)

(** The object after a call that returns, in closed form. *)
Lemma OptimizeLevelStyleCompaction_closed (budget : Z)
    (this : ColumnFamilyOptions) :
  0 ≤ num_levels this ≤ INT_MAX →
  ColumnFamilyOptions_OptimizeLevelStyleCompaction budget this
  = (this <| write_buffer_size ::= to_size_t (budget / 4) |>
          <| min_write_buffer_number_to_merge ::= 2 |>
          <| max_write_buffer_number ::= 6 |>
          <| level0_file_num_compaction_trigger ::= 2 |>
          <| target_file_size_base ::= budget / 8 |>
          <| max_bytes_for_level_base ::= budget |>
          <| compaction_style ::= kCompactionStyleLevel |>
          <| compression_per_level ::=
               level_style_compression <$> seqZ 0 (num_levels this) |>,
     Ok tt).
Proof.
  intros Hn. unfold ColumnFamilyOptions_OptimizeLevelStyleCompaction.
  cbv zeta.
  change (num_levels (this <| write_buffer_size ::= _ |> <| _ ::= _ |>
            <| _ ::= _ |> <| _ ::= _ |> <| _ ::= _ |> <| _ ::= _ |>
            <| _ ::= _ |>)) with (num_levels this).
  rewrite resize_num_levels by done.
  unfold for_int. rewrite for_int_compression.
  f_equal. f_equal. rewrite Z.sub_0_r.
  apply fill_all; [lia|by rewrite length_resize].
Qed.

(** X4: for [0 <= num_levels], [OptimizeLevelStyleCompaction] with a fixed
    budget is idempotent: the second call returns and leaves the object as
    the first call left it. *)
Theorem OptimizeLevelStyleCompaction_idempotent (B : Z)
    (this : ColumnFamilyOptions) :
  is_int (num_levels this) →
  0 ≤ num_levels this →
  let once := ColumnFamilyOptions_OptimizeLevelStyleCompaction B this in
  ColumnFamilyOptions_OptimizeLevelStyleCompaction B once.1 = once.
Proof.
  intros Hint Hn once. subst once.
  assert (Hrange : 0 ≤ num_levels this ≤ INT_MAX)
    by (unfold is_int in Hint; lia).
  rewrite (OptimizeLevelStyleCompaction_closed B this Hrange).
  cbn [fst].
  rewrite OptimizeLevelStyleCompaction_closed
    by (change (0 ≤ num_levels this ≤ INT_MAX); exact Hrange).
  change (num_levels (this <| write_buffer_size ::= _ |> <| _ ::= _ |>
            <| _ ::= _ |> <| _ ::= _ |> <| _ ::= _ |> <| _ ::= _ |>
            <| _ ::= _ |> <| _ ::= _ |>)) with (num_levels this).
  generalize (level_style_compression <$> seqZ 0 (num_levels this)).
  generalize (to_size_t (B `div` 4)) (B `div` 8).
  intros w t v. vm_compute. reflexivity.
Qed.

Lemma OptimizeLevelStyleCompaction_idempotent_witness :
  is_int (num_levels sample_ColumnFamilyOptions)
  ∧ 0 ≤ num_levels sample_ColumnFamilyOptions
  ∧ (let once :=
       ColumnFamilyOptions_OptimizeLevelStyleCompaction 536870912
         sample_ColumnFamilyOptions in
     ColumnFamilyOptions_OptimizeLevelStyleCompaction 536870912 once.1 = once).
Proof.
  assert (Hint : is_int (num_levels sample_ColumnFamilyOptions))
    by (vm_compute; split; discriminate).
  assert (Hn : 0 ≤ num_levels sample_ColumnFamilyOptions)
    by (vm_compute; discriminate).
  split_and!; [exact Hint|exact Hn|].
  exact (OptimizeLevelStyleCompaction_idempotent 536870912
           sample_ColumnFamilyOptions Hint Hn).
Defined.

(** X5: with the same budget and [0 <= num_levels], the level-style and
    the universal-style optimization commute in every field but
    [compaction_style], where the later call wins. *)
Theorem level_and_universal_style_commute_up_to_style (B : Z)
    (this : ColumnFamilyOptions) (style : CompactionStyle) :
  is_int (num_levels this) →
  0 ≤ num_levels this →
  let universal := ColumnFamilyOptions_OptimizeUniversalStyleCompaction B in
  let level x := (ColumnFamilyOptions_OptimizeLevelStyleCompaction B x).1 in
  compaction_style (level (universal this)) = kCompactionStyleLevel
  ∧ compaction_style (universal (level this)) = kCompactionStyleUniversal
  ∧ (level (universal this)) <| compaction_style ::= style |>
    = (universal (level this)) <| compaction_style ::= style |>.
Proof.
  intros Hint Hn universal level. subst universal level. cbv beta.
  assert (Hrange : 0 ≤ num_levels this ≤ INT_MAX)
    by (unfold is_int in Hint; lia).
  rewrite (OptimizeLevelStyleCompaction_closed B this Hrange).
  rewrite OptimizeLevelStyleCompaction_closed
    by (change (0 ≤ num_levels this ≤ INT_MAX); exact Hrange).
  change (num_levels
            (ColumnFamilyOptions_OptimizeUniversalStyleCompaction B this))
    with (num_levels this).
  cbn [fst]. unfold ColumnFamilyOptions_OptimizeUniversalStyleCompaction.
  generalize (level_style_compression <$> seqZ 0 (num_levels this)).
  generalize (to_size_t (B `div` 4)) (B `div` 8).
  intros w t v. split_and!; vm_compute; reflexivity.
Qed.

Lemma level_and_universal_style_commute_up_to_style_witness :
  is_int (num_levels sample_ColumnFamilyOptions)
  ∧ 0 ≤ num_levels sample_ColumnFamilyOptions
  ∧ compaction_style
      (ColumnFamilyOptions_OptimizeLevelStyleCompaction 536870912
         (ColumnFamilyOptions_OptimizeUniversalStyleCompaction 536870912
            sample_ColumnFamilyOptions)).1
    = kCompactionStyleLevel
  ∧ compaction_style
      (ColumnFamilyOptions_OptimizeUniversalStyleCompaction 536870912
         (ColumnFamilyOptions_OptimizeLevelStyleCompaction 536870912
            sample_ColumnFamilyOptions).1)
    = kCompactionStyleUniversal.
Proof.
  assert (Hint : is_int (num_levels sample_ColumnFamilyOptions))
    by (vm_compute; split; discriminate).
  assert (Hn : 0 ≤ num_levels sample_ColumnFamilyOptions)
    by (vm_compute; discriminate).
  split_and!; [exact Hint|exact Hn| |];
    apply (level_and_universal_style_commute_up_to_style 536870912
             sample_ColumnFamilyOptions kCompactionStyleLevel Hint Hn).
Defined.

(** X6: [OptimizeLevelStyleCompaction] called after [PrepareForBulkLoad]
    returns and enables no compression: [num_levels] is 2 and both entries
    of [compression_per_level] are [kNoCompression].  It keeps automatic
    compactions disabled and the level-0 slowdown and stop triggers at
    [1 << 30], and overwrites the level-0 compaction trigger, the merge
    threshold and the target file size of the bulk-load preparation. *)
Theorem OptimizeLevelStyleCompaction_after_PrepareForBulkLoad (B : Z)
    (options : Options) :
  let out :=
    ColumnFamilyOptions_OptimizeLevelStyleCompaction B
      (Options_PrepareForBulkLoad options) in
  out.2 = Ok tt
  ∧ num_levels out.1 = 2
  ∧ compression_per_level out.1 = [kNoCompression; kNoCompression]
  ∧ disable_auto_compactions out.1 = true
  ∧ level0_file_num_compaction_trigger out.1 = 2
  ∧ level0_slowdown_writes_trigger out.1 = 2 ^ 30
  ∧ level0_stop_writes_trigger out.1 = 2 ^ 30
  ∧ min_write_buffer_number_to_merge out.1 = 2
  ∧ target_file_size_base out.1 = B / 8.
Proof.
  intros out. subst out.
  rewrite OptimizeLevelStyleCompaction_closed
    by (vm_compute; split; discriminate).
  cbn [fst snd].
  change (num_levels (Options_PrepareForBulkLoad options)) with 2.
  generalize (to_size_t (B `div` 4)) (B `div` 8). intros w t.
  split_and!; vm_compute; reflexivity.
Qed.

(** X7: for a negative [num_levels], [OptimizeLevelStyleCompaction] throws
    [std::length_error] from the resize, after it assigned the scalar
    fields: the object keeps the new buffer and file sizes and the level
    style, and its [compression_per_level] is left as it was. *)
Theorem OptimizeLevelStyleCompaction_throws (B : Z)
    (this : ColumnFamilyOptions) :
  is_int (num_levels this) →
  num_levels this < 0 →
  let out := ColumnFamilyOptions_OptimizeLevelStyleCompaction B this in
  out.2 = Fault length_error
  ∧ write_buffer_size out.1 = to_size_t (B / 4)
  ∧ max_bytes_for_level_base out.1 = B
  ∧ compaction_style out.1 = kCompactionStyleLevel
  ∧ compression_per_level out.1 = compression_per_level this.
Proof.
  intros Hint Hneg out. subst out.
  assert (Hrange : INT_MIN ≤ num_levels this < 0)
    by (unfold is_int in Hint; lia).
  pose proof (OptimizeLevelStyleCompaction_negative_levels B this Hrange)
    as Hthrows.
  destruct (OptimizeLevelStyleCompaction_fields B this)
    as (Hw & _ & _ & _ & _ & Hb & Hs & _).
  split_and!; [exact Hthrows|exact Hw|exact Hb|exact Hs|].
  revert Hthrows. unfold ColumnFamilyOptions_OptimizeLevelStyleCompaction.
  cbv zeta. destruct (vector_resize _ _ _ _); [discriminate|].
  intros _. reflexivity.
Qed.

Lemma OptimizeLevelStyleCompaction_throws_witness :
  let this := sample_ColumnFamilyOptions <| num_levels ::= -1 |> in
  is_int (num_levels this)
  ∧ num_levels this < 0
  ∧ (ColumnFamilyOptions_OptimizeLevelStyleCompaction 536870912 this).2
    = Fault length_error.
Proof.
  intros this.
  assert (Hint : is_int (num_levels this)) by (vm_compute; split; discriminate).
  assert (Hneg : num_levels this < 0) by (vm_compute; reflexivity).
  split_and!; [exact Hint|exact Hneg|].
  apply (OptimizeLevelStyleCompaction_throws 536870912 this Hint Hneg).
Defined.

(** ** Construction from an [Options] value: errors and fixed point *)

(** X8: for a negative [num_levels] (and an array of fewer than 2^31
    entries), the construction of [AdvancedColumnFamilyOptions] or
    [ColumnFamilyOptions] from an [Options] value that passes the assertion
    throws [std::length_error]: the conversion of [num_levels] to an
    unsigned type makes the array look too short, and the resize is asked
    for a size beyond [max_size()]. *)
Theorem ctor_Options_negative_num_levels (NDEBUG : bool) (ext : Externals)
    (options : Options) :
  is_int (num_levels options) →
  num_levels options < 0 →
  Z.of_nat (length (max_bytes_for_level_multiplier_additional options))
    < 2 ^ 31 →
  NDEBUG = true ∨ memtable_factory options ≠ None →
  AdvancedColumnFamilyOptions_ctor_Options NDEBUG ext options
  = Fault length_error
  ∧ ColumnFamilyOptions_ctor_Options NDEBUG ext options = Fault length_error
  ∧ Options_split_reassemble NDEBUG ext options = Fault length_error.
Proof.
  intros Hint Hneg Hlen Hassert.
  assert (Hadv :
    AdvancedColumnFamilyOptions_ctor_Options NDEBUG ext options
    = Fault length_error).
  { unfold AdvancedColumnFamilyOptions_ctor_Options. cbv zeta.
    cbn [memtable_factory num_levels
         max_bytes_for_level_multiplier_additional].
    rewrite assert_passes
      by (destruct Hassert; [by left|right; by apply bool_decide_eq_true]).
    change (Ok () ;; ?m) with m.
    unfold to_unsigned_int, vector_resize, to_size_t.
    unfold is_int, INT_MIN, INT_MAX in Hint.
    rewrite <- (Z_mod_plus_full (num_levels options) 1 (2 ^ 32)).
    rewrite (Z.mod_small (num_levels options + 1 * 2 ^ 32)) by lia.
    destruct (Z.ltb_spec
                (Z.of_nat (length (max_bytes_for_level_multiplier_additional
                                     options)))
                (num_levels options + 1 * 2 ^ 32)); [|lia].
    rewrite <- (Z_mod_plus_full (num_levels options) 1 (2 ^ 64)).
    rewrite (Z.mod_small (num_levels options + 1 * 2 ^ 64)) by lia.
    change (vector_max_size 4) with (2 ^ 61 - 1).
    destruct (Z.ltb_spec (2 ^ 61 - 1) (num_levels options + 1 * 2 ^ 64));
      [done|lia]. }
  split_and!; [exact Hadv| |].
  - unfold ColumnFamilyOptions_ctor_Options. by rewrite Hadv.
  - unfold Options_split_reassemble, ColumnFamilyOptions_ctor_Options.
    by rewrite Hadv.
Qed.

Lemma ctor_Options_negative_num_levels_witness :
  let options := sample_Options <| num_levels ::= -1 |> in
  is_int (num_levels options)
  ∧ num_levels options < 0
  ∧ Z.of_nat (length (max_bytes_for_level_multiplier_additional options))
      < 2 ^ 31
  ∧ (false = true ∨ memtable_factory options ≠ None)
  ∧ ColumnFamilyOptions_ctor_Options false sample_Externals options
    = Fault length_error.
Proof.
  intros options.
  assert (Hint : is_int (num_levels options))
    by (vm_compute; split; discriminate).
  assert (Hneg : num_levels options < 0) by (vm_compute; reflexivity).
  assert (Hlen :
    Z.of_nat (length (max_bytes_for_level_multiplier_additional options))
      < 2 ^ 31) by (vm_compute; reflexivity).
  assert (Hm : false = true ∨ memtable_factory options ≠ None)
    by (right; vm_compute; discriminate).
  split_and!; [exact Hint|exact Hneg|exact Hlen|exact Hm|].
  apply (ctor_Options_negative_num_levels false sample_Externals options
           Hint Hneg Hlen Hm).
Defined.

(** X9: a null [memtable_factory] fails the assertion of the constructor
    in a build that keeps assertions, before the repair of the array
    (whatever [num_levels] is); in a build with [NDEBUG] the null pointer is
    copied into the constructed object. *)
Theorem ctor_Options_null_memtable_factory (ext : Externals)
    (options : Options) :
  memtable_factory options = None →
  AdvancedColumnFamilyOptions_ctor_Options false ext options
  = Fault assertion_failure
  ∧ ColumnFamilyOptions_ctor_Options false ext options
    = Fault assertion_failure
  ∧ (0 ≤ num_levels options ≤ INT_MAX →
     ∃ this,
       ColumnFamilyOptions_ctor_Options true ext options = Ok this
       ∧ memtable_factory this = None).
Proof.
  intros Hnull.
  assert (Hadv :
    AdvancedColumnFamilyOptions_ctor_Options false ext options
    = Fault assertion_failure).
  { unfold AdvancedColumnFamilyOptions_ctor_Options. cbv zeta.
    cbn [memtable_factory]. by rewrite Hnull. }
  split_and!; [exact Hadv| |].
  - unfold ColumnFamilyOptions_ctor_Options. by rewrite Hadv.
  - intros Hn. eexists. split.
    + apply ColumnFamilyOptions_ctor_Options_ok; [exact Hn|by left].
    + exact Hnull.
Qed.

Lemma ctor_Options_null_memtable_factory_witness :
  let options := sample_Options <| memtable_factory ::= None |>
                                <| num_levels ::= -1 |> in
  memtable_factory options = None
  ∧ ColumnFamilyOptions_ctor_Options false sample_Externals options
    = Fault assertion_failure.
Proof.
  intros options.
  assert (Hnull : memtable_factory options = None) by reflexivity.
  split; [exact Hnull|].
  apply (ctor_Options_null_memtable_factory sample_Externals options Hnull).
Defined.

(** X10: the repair of the constructor never truncates: whenever the
    construction returns, the source array is a prefix of the constructed
    object's array, and an array that is long enough is copied unchanged,
    however much longer than [num_levels] it is. *)
Theorem ctor_Options_never_truncates (NDEBUG : bool) (ext : Externals)
    (options : Options) (this : AdvancedColumnFamilyOptions) :
  AdvancedColumnFamilyOptions_ctor_Options NDEBUG ext options = Ok this →
  max_bytes_for_level_multiplier_additional options
    `prefix_of` max_bytes_for_level_multiplier_additional this
  ∧ (to_unsigned_int (num_levels options)
       ≤ Z.of_nat (length (max_bytes_for_level_multiplier_additional
                             options)) →
     max_bytes_for_level_multiplier_additional this
     = max_bytes_for_level_multiplier_additional options).
Proof.
  unfold AdvancedColumnFamilyOptions_ctor_Options. cbv zeta.
  cbn [memtable_factory num_levels max_bytes_for_level_multiplier_additional].
  destruct (assert _ _); [|discriminate].
  change (Ok () ;; ?m) with m.
  destruct (Z.ltb_spec
              (Z.of_nat (length (max_bytes_for_level_multiplier_additional
                                   options)))
              (to_unsigned_int (num_levels options))) as [Hshort|Hlong].
  - unfold vector_resize.
    destruct (_ <? to_size_t _); [discriminate|].
    intros [= <-]. split; [|lia].
    change (max_bytes_for_level_multiplier_additional (_ <| _ ::= ?v |>))
      with v.
    rewrite resize_ge; [by eexists|].
    unfold to_unsigned_int, to_size_t in *.
    assert (num_levels options `mod` 2 ^ 32
            ≤ num_levels options `mod` 2 ^ 64); [|lia].
    assert (E : num_levels options `mod` 2 ^ 32
                = (num_levels options `mod` 2 ^ 64) `mod` 2 ^ 32)
      by (symmetry; apply Z.mod_mod_divide; by exists (2 ^ 32)).
    rewrite E. apply Z.mod_le; [apply Z.mod_pos_bound|]; lia.
  - intros [= <-]. done.
Qed.

Lemma ctor_Options_never_truncates_witness :
  let options := sample_Options <| num_levels ::= 3 |> in
  ∃ this,
    AdvancedColumnFamilyOptions_ctor_Options false sample_Externals options
    = Ok this
    ∧ max_bytes_for_level_multiplier_additional this = [1; 1; 1; 1; 1; 1; 1].
Proof.
  intros options. eexists. split; [vm_compute; reflexivity|].
  refine (proj2 (ctor_Options_never_truncates false sample_Externals options
                   _ _) _).
  - vm_compute. reflexivity.
  - vm_compute. discriminate.
Defined.

Lemma repaired_idempotent (n : Z) (v : list Z) :
  0 ≤ n → repaired n (repaired n v) = repaired n v.
Proof.
  intros Hn. unfold repaired at 1.
  destruct (Z.ltb_spec (Z.of_nat (length (repaired n v))) n) as [Hshort|];
    [|done].
  exfalso. unfold repaired in Hshort.
  destruct (Z.ltb_spec (Z.of_nat (length v)) n);
    [rewrite length_resize in Hshort|]; lia.
Qed.

(** X11: splitting and reassembling reaches a fixed point after one pass:
    the reassembled [Options] value, split and reassembled again, is
    unchanged. *)
Theorem Options_split_reassemble_fixed_point (NDEBUG : bool)
    (ext : Externals) (o : Options) :
  is_int (num_levels o) →
  0 ≤ num_levels o →
  NDEBUG = true ∨ memtable_factory o ≠ None →
  ∃ r,
    Options_split_reassemble NDEBUG ext o = Ok r
    ∧ Options_split_reassemble NDEBUG ext r = Ok r.
Proof.
  intros Hint Hn Hassert.
  assert (Hrange : 0 ≤ num_levels o ≤ INT_MAX)
    by (unfold is_int in Hint; lia).
  unfold Options_split_reassemble at 1.
  rewrite ColumnFamilyOptions_ctor_Options_ok by done.
  eexists. split; [reflexivity|].
  unfold Options_split_reassemble.
  rewrite ColumnFamilyOptions_ctor_Options_ok; [|exact Hrange|exact Hassert].
  cbn [mbind result_bind mret result_ret].
  match goal with
  | |- context [repaired ?n (max_bytes_for_level_multiplier_additional ?x)] =>
      lazymatch x with
      | o => fail
      | _ =>
          change (repaired n (max_bytes_for_level_multiplier_additional x))
            with (repaired (num_levels o)
                    (repaired (num_levels o)
                       (max_bytes_for_level_multiplier_additional o)))
      end
  end.
  rewrite repaired_idempotent by done.
  generalize (repaired (num_levels o)
                (max_bytes_for_level_multiplier_additional o)).
  intros v. destruct o as [[] [[] ]]. destruct ext as [[? [[] ]]].
  vm_compute. reflexivity.
Qed.

Lemma Options_split_reassemble_fixed_point_witness :
  let o := sample_Options <| num_levels ::= 10 |> in
  is_int (num_levels o)
  ∧ 0 ≤ num_levels o
  ∧ (false = true ∨ memtable_factory o ≠ None)
  ∧ ∃ r,
      Options_split_reassemble false sample_Externals o = Ok r
      ∧ Options_split_reassemble false sample_Externals r = Ok r.
Proof.
  intros o.
  assert (Hint : is_int (num_levels o)) by (vm_compute; split; discriminate).
  assert (Hn : 0 ≤ num_levels o) by (vm_compute; discriminate).
  assert (Hm : false = true ∨ memtable_factory o ≠ None)
    by (right; vm_compute; discriminate).
  split_and!; [exact Hint|exact Hn|exact Hm|].
  exact (Options_split_reassemble_fixed_point false sample_Externals o
           Hint Hn Hm).
Defined.

Lemma additional_assigned (this : ColumnFamilyOptions) (v : list Z) :
  max_bytes_for_level_multiplier_additional
    (this <| max_bytes_for_level_multiplier_additional ::= v |>) = v.
Proof. reflexivity. Qed.

(** X12: after [PrepareForBulkLoad], whatever [num_levels] was before (a
    negative value too), the construction of [ColumnFamilyOptions] from the
    options does not throw: it returns an object with [num_levels == 2]
    whose array has at least 2 entries and extends the source array. *)
Theorem ctor_Options_after_PrepareForBulkLoad (NDEBUG : bool)
    (ext : Externals) (options : Options) :
  NDEBUG = true ∨ memtable_factory options ≠ None →
  ∃ this,
    ColumnFamilyOptions_ctor_Options NDEBUG ext
      (Options_PrepareForBulkLoad options) = Ok this
    ∧ num_levels this = 2
    ∧ (2 ≤ length (max_bytes_for_level_multiplier_additional this))%nat
    ∧ max_bytes_for_level_multiplier_additional options
        `prefix_of` max_bytes_for_level_multiplier_additional this.
Proof.
  intros Hassert. eexists. split.
  { apply ColumnFamilyOptions_ctor_Options_ok.
    - vm_compute. split; discriminate.
    - exact Hassert. }
  change (num_levels (Options_PrepareForBulkLoad options)) with 2.
  change (max_bytes_for_level_multiplier_additional
            (Options_PrepareForBulkLoad options))
    with (max_bytes_for_level_multiplier_additional options).
  generalize (max_bytes_for_level_multiplier_additional options). intros v.
  split; [reflexivity|].
  rewrite !additional_assigned. unfold repaired.
  destruct (Z.ltb_spec (Z.of_nat (length v)) 2).
  - rewrite length_resize. split; [done|].
    rewrite resize_ge by lia. by eexists.
  - split; [lia|done].
Qed.

Lemma ctor_Options_after_PrepareForBulkLoad_witness :
  let options := sample_Options <| num_levels ::= -5 |> in
  (false = true ∨ memtable_factory options ≠ None)
  ∧ ColumnFamilyOptions_ctor_Options false sample_Externals options
    = Fault length_error
  ∧ ∃ this,
      ColumnFamilyOptions_ctor_Options false sample_Externals
        (Options_PrepareForBulkLoad options) = Ok this
      ∧ num_levels this = 2.
Proof.
  intros options.
  assert (Hm : false = true ∨ memtable_factory options ≠ None)
    by (right; vm_compute; discriminate).
  split_and!; [exact Hm|vm_compute; reflexivity|].
  destruct (ctor_Options_after_PrepareForBulkLoad false sample_Externals
              options Hm) as (this & Hok & Hlevels & _).
  exists this. split; [exact Hok|exact Hlevels].
Defined.

(** ** The dump: how it ends, and the lines of a dump that completes *)

Section DumpResult.

Variable NDEBUG : bool.
Variable ext : Externals.

Implicit Types (log : Logger) (this : ColumnFamilyOptions).

Lemma returns_ret {A : Type} (a : A) : returns (mret a) (Ok a).
Proof. by intros log. Qed.

Lemma returns_bind_ok {A B : Type} (m : Exec Logger A)
    (k : A → Exec Logger B) (a : A) (r : result B) :
  returns m (Ok a) → returns (k a) r → returns (m ≫= k) r.
Proof.
  intros Hm Hk log. unfold mbind, Exec_bind. specialize (Hm log).
  destruct (m log) as [log' [a'|f]]; cbn in Hm; [|discriminate].
  injection Hm as ->. apply Hk.
Qed.

Lemma returns_bind_fault {A B : Type} (m : Exec Logger A)
    (k : A → Exec Logger B) (f : fault) :
  returns m (Fault f) → returns (m ≫= k) (Fault f).
Proof.
  intros Hm log. unfold mbind, Exec_bind. specialize (Hm log).
  destruct (m log) as [log' [a'|f']]; cbn in Hm; [discriminate|].
  by injection Hm as ->.
Qed.

Lemma returns_header (format : string) (arguments : list printf_arg) :
  returns (ROCKS_LOG_HEADER format arguments) (Ok tt).
Proof. by intros log. Qed.

Lemma returns_deref_some {A : Type} (x : A) :
  returns (deref (Some x)) (Ok x).
Proof. by intros log. Qed.

Lemma returns_deref_none {A : Type} :
  returns (deref (None : option A)) (Fault null_dereference).
Proof. by intros log. Qed.

Lemma returns_for_index {A : Type} (format : string)
    (arguments : Z → A → list printf_arg) (first : Z) (v : list A) :
  returns
    (for_index (fun i x => ROCKS_LOG_HEADER format (arguments i x)) first v)
    (Ok tt).
Proof.
  revert first. induction v as [|x v IH]; intros first; [apply returns_ret|].
  cbn [for_index]. eapply returns_bind_ok; [apply returns_header|apply IH].
Qed.

Lemma returns_lines {A : Type} (cond : bool) (format format' : string)
    (arguments : Z → A → list printf_arg) (arguments' : list printf_arg)
    (v : list A) :
  Z.of_nat (length v) ≤ UINT_MAX →
  returns
    (if cond
     then for_index_unsigned_int
            (fun i x => ROCKS_LOG_HEADER format (arguments i x)) v
     else ROCKS_LOG_HEADER format' arguments')
    (Ok tt).
Proof.
  intros Hsize. destruct cond; [|apply returns_header].
  rewrite for_index_unsigned_int_bounded by done. apply returns_for_index.
Qed.

Lemma returns_enum_known (table : gmap Z string) (value : Z) (name : string) :
  table !! value = Some name →
  returns (enum_to_string NDEBUG table value) (Ok name).
Proof. intros E log. unfold enum_to_string. by rewrite E. Qed.

Lemma returns_enum_unknown (table : gmap Z string) (value : Z) :
  table !! value = None →
  NDEBUG = true →
  returns (enum_to_string NDEBUG table value)
    (Ok ("unknown_" +:+ std_to_string value)).
Proof. intros E -> log. unfold enum_to_string. by rewrite E. Qed.

Lemma returns_enum_asserts (table : gmap Z string) (value : Z) :
  table !! value = None →
  NDEBUG = false →
  returns (enum_to_string NDEBUG table value) (Fault assertion_failure).
Proof. intros E -> log. unfold enum_to_string. by rewrite E. Qed.

Lemma returns_bind_collector_names {B : Type} (names : string)
    (v : list (option object)) (k : string → Exec Logger B) (r : result B) :
  Forall (fun p => p ≠ None) v →
  (∀ names', returns (k names') r) →
  returns
    (for_range
       (fun names collector_factory =>
          f ← deref collector_factory;
          mret (names +:+ Name ext f +:+ "; "))
       names v
     ≫= k)
    r.
Proof.
  intros Hv Hk. revert names.
  induction Hv as [|[f|] v Hf _ IH]; intros names log; [apply Hk| |done].
  specialize (IH (names +:+ Name ext f +:+ "; ") log).
  exact IH.
Qed.

Lemma returns_collector_null (names : string) (v : list (option object)) :
  ¬ Forall (fun p => p ≠ None) v →
  returns
    (for_range
       (fun names collector_factory =>
          f ← deref collector_factory;
          mret (names +:+ Name ext f +:+ "; "))
       names v)
    (Fault null_dereference).
Proof.
  revert names. induction v as [|[f|] v IH]; intros names Hv log.
  - by destruct Hv.
  - apply (IH (names +:+ Name ext f +:+ "; ")).
    intros Hv'. apply Hv. by constructor.
  - done.
Qed.

End DumpResult.

(** One statement of the dump, for [returns]. *)
Ltac returns_step :=
  lazymatch goal with
  | |- returns (mbind _ (ROCKS_LOG_HEADER _ _)) _ =>
      eapply returns_bind_ok; [apply returns_header|]
  | |- returns (mbind _ (deref (Some _))) _ =>
      eapply returns_bind_ok; [apply returns_deref_some|]
  | |- returns (mbind _ (deref None)) _ =>
      apply returns_bind_fault, returns_deref_none
  | |- returns (mbind _ (for_index _ _ _)) _ =>
      eapply returns_bind_ok; [apply returns_for_index|]
  | |- returns (mbind _ (if _ then _ else _)) _ =>
      eapply returns_bind_ok; [apply returns_lines; assumption|]
  | |- returns (mbind _ (enum_to_string _ _ _)) _ =>
      first
        [ eapply returns_bind_ok; [eapply returns_enum_known; eassumption|]
        | eapply returns_bind_ok;
          [apply returns_enum_unknown; [assumption|reflexivity]|]
        | apply returns_bind_fault, returns_enum_asserts;
          [assumption|reflexivity] ]
  | |- returns (mbind _ (for_range _ _ _)) _ =>
      first
        [ apply returns_bind_collector_names; [assumption|intros ?]
        | apply returns_bind_fault, returns_collector_null; assumption ]
  | |- returns (ROCKS_LOG_HEADER _ _) _ => apply returns_header
  end;
  cbv beta.

(** X14: how the dump ends, for every build and log and every
    configuration whose [compression_per_level] has at most [UINT_MAX]
    entries, so that the 32-bit index of the loop over it reaches its end:
    with a null comparator, memtable factory or table factory the dump fails
    on the null dereference; otherwise, in a build that keeps assertions, a
    [compaction_style] or [compaction_pri] without a name fails the
    assertion; otherwise a null table-properties collector factory fails on
    the null dereference; otherwise the dump completes. *)
Theorem Dump_ends_as_Dump_result (NDEBUG : bool) (ext : Externals)
    (this : ColumnFamilyOptions) (log : Logger) :
  Z.of_nat (length (compression_per_level this)) ≤ UINT_MAX →
  (ColumnFamilyOptions_Dump NDEBUG ext this log).2
  = Dump_result NDEBUG ext this.
Proof.
  intros Hsize. revert log.
  change (returns (ColumnFamilyOptions_Dump NDEBUG ext this)
            (Dump_result NDEBUG ext this)).
  unfold ColumnFamilyOptions_Dump, Dump_result.
  destruct (comparator this) as [c|]; [|returns_step].
  destruct (memtable_factory this) as [m|]; [|by repeat returns_step].
  destruct (table_factory this) as [t|]; [|by repeat returns_step].
  destruct NDEBUG;
    destruct (compaction_style_to_string ext !! _) as [style|] eqn:Es;
    destruct (compaction_pri_to_string ext !! _) as [pri|] eqn:Ep;
    cbn [negb andb orb];
    try rewrite (bool_decide_eq_false_2 (Some style = None)) by done;
    try rewrite (bool_decide_eq_false_2 (Some pri = None)) by done;
    try rewrite (bool_decide_eq_true_2 (@None string = None)) by done;
    cbn [orb];
    try (destruct (bool_decide (Forall _ _)) eqn:Hcollectors;
         [apply bool_decide_eq_true in Hcollectors
         |apply bool_decide_eq_false in Hcollectors]);
    repeat returns_step.
Qed.

Lemma Dump_ends_as_Dump_result_witness :
  let this :=
    sample_ColumnFamilyOptions
      <| compression_per_level ::= [kNoCompression; kSnappyCompression] |>
      <| compaction_pri ::= CompactionPri_cast 9 |> in
  Z.of_nat (length (compression_per_level this)) ≤ UINT_MAX
  ∧ (ColumnFamilyOptions_Dump false sample_Externals this []).2
    = Fault assertion_failure
  ∧ (ColumnFamilyOptions_Dump true sample_Externals this []).2 = Ok tt.
Proof.
  intros this.
  assert (Hsize : Z.of_nat (length (compression_per_level this)) ≤ UINT_MAX)
    by (vm_compute; discriminate).
  split_and!; [exact Hsize| |].
  - exact (Dump_ends_as_Dump_result false sample_Externals this [] Hsize).
  - exact (Dump_ends_as_Dump_result true sample_Externals this [] Hsize).
Defined.

Section DumpLines.

Variable NDEBUG : bool.
Variable ext : Externals.

Implicit Types (log : Logger) (this : ColumnFamilyOptions).






End DumpLines.





(** X16: a null required collaborator stops the dump at the statement that
    dereferences it: with a null comparator nothing is logged; with a null
    memtable factory exactly the four lines before it are logged; with a
    null table factory exactly five lines are logged. *)
Theorem Dump_stops_at_null_collaborator (NDEBUG : bool) (ext : Externals)
    (this : ColumnFamilyOptions) (log : Logger) :
  (comparator this = None →
   ColumnFamilyOptions_Dump NDEBUG ext this log
   = (log, Fault null_dereference))
  ∧ (∀ c : object,
       comparator this = Some c →
       memtable_factory this = None →
       ColumnFamilyOptions_Dump NDEBUG ext this log
       = (log ++ [
            {| fmt := "              Options.comparator: %s";
               args := [arg_s (Name ext c)] |};
            {| fmt := "          Options.merge_operator: %s";
               args := [arg_s (name_or ext "None" (merge_operator this))] |};
            {| fmt := "       Options.compaction_filter: %s";
               args :=
                 [arg_s (name_or ext "None" (compaction_filter this))] |};
            {| fmt := "       Options.compaction_filter_factory: %s";
               args :=
                 [arg_s (name_or ext "None"
                           (compaction_filter_factory this))] |}],
          Fault null_dereference))
  ∧ (∀ (c m : object),
       comparator this = Some c →
       memtable_factory this = Some m →
       table_factory this = None →
       (ColumnFamilyOptions_Dump NDEBUG ext this log).2
       = Fault null_dereference
       ∧ length (ColumnFamilyOptions_Dump NDEBUG ext this log).1
         = (length log + 5)%nat).
Proof.
  unfold ColumnFamilyOptions_Dump. split_and!.
  - intros Ec. destruct (comparator this); [discriminate|reflexivity].
  - intros c Ec Em.
    destruct (comparator this) as [c'|]; [|discriminate].
    injection Ec as ->.
    destruct (memtable_factory this); [discriminate|].
    lazy [mbind Exec_bind mret Exec_ret deref lift_result ROCKS_LOG_HEADER].
    by rewrite <- !app_assoc.
  - intros c m Ec Em Et.
    destruct (comparator this) as [c'|]; [|discriminate].
    destruct (memtable_factory this) as [m'|]; [|discriminate].
    destruct (table_factory this); [discriminate|].
    lazy [mbind Exec_bind mret Exec_ret deref lift_result ROCKS_LOG_HEADER].
    cbn [fst snd]. split; [done|]. rewrite !length_app. cbn [length]. lia.
Qed.


(** ** Parallelism *)

(** X17: [IncreaseParallelism(total_threads)], for a [total_threads] above
    [INT_MIN], splits the thread budget between compactions and flushes:
    [max_background_compactions + max_background_flushes == total_threads];
    it leaves every other field of the options unchanged.  With an
    environment it returns after exactly two calls, sizing the low-priority
    pool to [total_threads] and the high-priority pool to 1; with a null
    [env] it fails on the dereference, after the two fields were assigned
    and without a call. *)
Theorem IncreaseParallelism_thread_budget (total_threads : Z)
    (this : DBOptions) (calls : list SetBackgroundThreads_call) :
  is_int total_threads →
  INT_MIN < total_threads →
  let out := DBOptions_IncreaseParallelism total_threads (this, calls) in
  max_background_compactions out.1.1 + max_background_flushes out.1.1
    = total_threads
  ∧ out.1.1 <| max_background_compactions ::= max_background_compactions this |>
            <| max_background_flushes ::= max_background_flushes this |>
    = this
  ∧ match env this with
    | Some e =>
        out.2 = Ok tt
        ∧ out.1.2
          = calls ++ [{| call_env := e; call_number := total_threads;
                         call_pri := Env_LOW |};
                      {| call_env := e; call_number := 1;
                         call_pri := Env_HIGH |}]
    | None => out.2 = Fault null_dereference ∧ out.1.2 = calls
    end.
Proof.
  intros _ _ out. subst out. unfold DBOptions_IncreaseParallelism.
  cbv zeta.
  change (env (this <| max_background_compactions ::= _ |> <| _ ::= _ |>))
    with (env this).
  destruct (env this) as [e|] eqn:Ee; cbn [fst snd].
  - split_and!; [simpl_fields; lia| |done|by rewrite <- app_assoc].
    clear Ee. destruct this. reflexivity.
  - split_and!; [simpl_fields; lia| |done|done].
    clear Ee. destruct this. reflexivity.
Qed.

Lemma IncreaseParallelism_thread_budget_witness :
  is_int 16
  ∧ INT_MIN < 16
  ∧ max_background_compactions
      (DBOptions_IncreaseParallelism 16 (sample_DBOptions, [])).1.1
    + max_background_flushes
        (DBOptions_IncreaseParallelism 16 (sample_DBOptions, [])).1.1
    = 16.
Proof.
  assert (Hint : is_int 16) by (vm_compute; split; discriminate).
  assert (Hmin : INT_MIN < 16) by (vm_compute; reflexivity).
  split_and!; [exact Hint|exact Hmin|].
  exact (proj1 (IncreaseParallelism_thread_budget 16 sample_DBOptions []
                  Hint Hmin)).
Defined.

(** ** ReadOptions *)

(** X18: the default constructor is the reduced constructor at
    [(true, true)], and the reduced constructor gives different values for
    different arguments. *)
Theorem ReadOptions_ctor_is_reduced_ctor (cksum cache cksum' cache' : bool) :
  ReadOptions_ctor = ReadOptions_ctor_bool_bool true true
  ∧ (ReadOptions_ctor_bool_bool cksum cache
     = ReadOptions_ctor_bool_bool cksum' cache'
     ↔ cksum = cksum' ∧ cache = cache').
Proof.
  split; [reflexivity|]. split.
  - intros H. by injection H.
  - by intros [-> ->].
Qed.
